(** * Moving-average stock valuation: [stockreport/services.py]

    A shallow embedding of the three report routines of [LiveSQLService]
    ([get_closing_stock_live], [get_closing_balance_live],
    [get_stock_ledger_live]) together with the properties of the replay
    they perform.

    Numbers.  The columns read from the database are treated as exact
    rationals ([Qc], the canonical rationals, whose equality is Leibniz
    equality); the replay is therefore verified under exact arithmetic.
    The one partial arithmetic operation of the code, [/], is modelled as
    partial: dividing by zero yields [ZeroDivisionError].

    Dates.  A calendar date is its day number ([Z]); the code truncates a
    timestamp to its date before every comparison, so the rows are taken
    to carry dates already.  An optional bound is an [option]; a date is
    always truthy in Python, so [if start_date:] is the test "is given".

    Queries.  A table is the list of its rows in the order in which the
    cursor yields them; a [WHERE] clause is a [filter].  The [ORDER BY]
    clauses of the queries are the data source's contract and appear as an
    explicit sortedness hypothesis where a property depends on them. *)

From Stdlib Require Import ZArith QArith Qcanon Qround List Bool String Lia Lqa.
From Stdlib Require Import Sorted DecimalString Ascii.
Import ListNotations.

Local Open Scope Z_scope.
Local Open Scope Qc_scope.
Local Open Scope list_scope.

(** ** Python arithmetic on exact rationals *)

Module Py.

(** Outcome of an expression that may raise. *)
Inductive result (A : Type) : Type :=
| Ok (a : A)
| ZeroDivisionError.
Arguments Ok {A} a.
Arguments ZeroDivisionError {A}.

Definition bind {A B : Type} (m : result A) (k : A -> result B) : result B :=
  match m with
  | Ok a => k a
  | ZeroDivisionError => ZeroDivisionError
  end.

(** [bool(x)] of a number: it is nonzero. *)
Definition truthy (x : Qc) : bool := negb (Qeq_bool x 0).

(** [x > 0] and [x < 0]. *)
Definition ltb (x y : Qc) : bool :=
  match x ?= y with Lt => true | _ => false end.

(** [a / b]. *)
Definition div (a b : Qc) : result Qc :=
  if Qeq_bool b 0 then ZeroDivisionError else Ok (a / b).

(** [abs(x)]. *)
Definition abs (x : Qc) : Qc := if ltb x 0 then - x else x.

(** Nearest integer, ties to the even one, as [round] breaks them. *)
Definition round_half_even (x : Q) : Z :=
  let f := Qfloor x in
  match Qcompare (x - inject_Z f) (1 # 2) with
  | Lt => f
  | Gt => (f + 1)%Z
  | Eq => if Z.even f then f else (f + 1)%Z
  end.

(** [round(x, 2)]. *)
Definition round2 (x : Qc) : Qc :=
  Q2Qc (round_half_even (x * 100)%Q # 100).

(** [v or 0] applied to a possibly NULL column. *)
Definition or0 (v : option Qc) : Qc :=
  match v with
  | Some x => if truthy x then x else 0
  | None => 0
  end.

End Py.

Import Py.

Notation "x <- m ;; k" := (Py.bind m (fun x => k))
  (at level 61, m at next level, right associativity).

(** ** Rows of the tables *)

Definition date := Z.
Bind Scope Z_scope with date.

(** [Master1]: [Code, Name, MasterType]. *)
Record Master : Type := mkMaster {
  Code : Z;
  Name : string;
  MasterType : Z
}.

(** [folio1]: the stored opening quantity [D1] and value [D3] of a master. *)
Record Folio : Type := mkFolio {
  FMasterCode : Z;
  FMasterType : Z;
  D1 : option Qc;
  D3 : option Qc
}.

(** [Tran2]: one posted movement.  For a stock item [Value1] is the signed
    quantity and [Value3] the amount; for an account [Value1] is the
    signed amount. *)
Record Tran : Type := mkTran {
  MasterCode1 : Z;
  Date : date;
  Value1 : Qc;
  Value3 : Qc;
  VchType : Z;
  RecType : Z;
  VchNo : option string
}.

Record Database : Type := mkDatabase {
  Master1 : list Master;
  folio1 : list Folio;
  Tran2 : list Tran
}.

(** ** The queries *)

(** [SELECT ... FROM Master1 WHERE MasterType = ty ORDER BY Name]. *)
Definition master_items (db : Database) (ty : Z) : list Master :=
  filter (fun m => (MasterType m =? ty)%Z) (Master1 db).

(** [SELECT ... FROM Master1 WHERE Code = c AND MasterType = 6], [fetchone]. *)
Definition master_row (db : Database) (c : Z) : option Master :=
  find (fun m => (Code m =? c)%Z && (MasterType m =? 6)%Z) (Master1 db).

(** [SELECT D1, D3 FROM folio1 WHERE MasterCode = c AND MasterType = ty],
    [fetchone]. *)
Definition folio_row (db : Database) (c ty : Z) : option Folio :=
  find (fun f => (FMasterCode f =? c)%Z && (FMasterType f =? ty)%Z) (folio1 db).

(** [row[i] if row and row[i] else 0]. *)
Definition folio_value (row : option Folio) (col : Folio -> option Qc) : Qc :=
  match row with
  | Some f => or0 (col f)
  | None => 0
  end.

(** [SELECT ... FROM Tran2 WHERE MasterCode1 = c ORDER BY Date, RecType]. *)
Definition all_transactions (db : Database) (c : Z) : list Tran :=
  filter (fun t => (MasterCode1 t =? c)%Z) (Tran2 db).

(** The same query with [AND Date <= end_date] appended when [end_date] is
    given. *)
Definition transactions_upto (db : Database) (c : Z) (end_date : option date)
  : list Tran :=
  match end_date with
  | Some e => filter (fun t => (Date t <=? e)%Z) (all_transactions db c)
  | None => all_transactions db c
  end.

(** ** The replay *)

(** [(val / qty) if qty else 0]. *)
Definition average_rate (val qty : Qc) : result Qc :=
  if truthy qty then Py.div val qty else Ok 0.

(** The running variables [qty], [val], [avg_rate] of a loop. *)
Record Running : Type := mkRunning {
  qty : Qc;
  val : Qc;
  avg_rate : Qc
}.

(** Body of the loop that advances to the window start (after its
    [break] test); the two routines carry the same text. *)
Definition advance (s : Running) (txn : Tran) : result Running :=
  if ltb 0 (Value1 txn) then
    let qty' := qty s + Value1 txn in
    let val' := val s + Value3 txn in
    r <- average_rate val' qty' ;;
    Ok (mkRunning qty' val' r)
  else if ltb (Value1 txn) 0 then
    let sale_qty := Py.abs (Value1 txn) in
    let val' := val s - sale_qty * avg_rate s in
    let qty' := qty s - sale_qty in
    r <- average_rate val' qty' ;;
    Ok (mkRunning qty' val' r)
  else Ok s.

(** [for txn in transactions: if txn_date >= start_date: break; ...]. *)
Fixpoint advance_to (start_date : date) (txns : list Tran) (s : Running)
  : result Running :=
  match txns with
  | [] => Ok s
  | txn :: rest =>
      if (start_date <=? Date txn)%Z then Ok s
      else s' <- advance s txn ;; advance_to start_date rest s'
  end.

(** The block [if start_date: ...] that replaces the stored opening
    balance by the balance as of [start_date]. *)
Definition opening_as_of (start_date : option date) (txns : list Tran)
  (opening_qty opening_val : Qc) : result (Qc * Qc) :=
  match start_date with
  | Some sd =>
      r <- average_rate opening_val opening_qty ;;
      s <- advance_to sd txns (mkRunning opening_qty opening_val r) ;;
      Ok (qty s, val s)
  | None => Ok (opening_qty, opening_val)
  end.

(** The two [continue] tests of the in-window loops:
    [start_date and txn_date < start_date], [end_date and txn_date > end_date]. *)
Definition skipped (start_date end_date : option date) (txn : Tran) : bool :=
  match start_date with Some sd => (Date txn <? sd)%Z | None => false end
  || match end_date with Some ed => (Date txn >? ed)%Z | None => false end.

(** ** The stock report: [get_closing_stock_live] *)

(** The variables of the in-window loop of the stock report. *)
Record Accum : Type := mkAccum {
  running : Running;
  period_qty : Qc;
  period_val : Qc
}.

(** Body of the in-window loop (after its [continue] tests).  In the sale
    branch the statement [period_val -= sale_qty * avg_rate] comes after
    [avg_rate] has been reassigned. *)
Definition accumulate (a : Accum) (txn : Tran) : result Accum :=
  let s := running a in
  if ltb 0 (Value1 txn) then
    let qty' := qty s + Value1 txn in
    let val' := val s + Value3 txn in
    r <- average_rate val' qty' ;;
    Ok (mkAccum (mkRunning qty' val' r)
                (period_qty a + Value1 txn) (period_val a + Value3 txn))
  else if ltb (Value1 txn) 0 then
    let sale_qty := Py.abs (Value1 txn) in
    let val' := val s - sale_qty * avg_rate s in
    let qty' := qty s - sale_qty in
    r <- average_rate val' qty' ;;
    Ok (mkAccum (mkRunning qty' val' r)
                (period_qty a + Value1 txn) (period_val a - sale_qty * r))
  else Ok a.

(** [for txn in transactions: if ...: continue; if ...: continue; ...]. *)
Fixpoint replay_window (start_date end_date : option date) (txns : list Tran)
  (a : Accum) : result Accum :=
  match txns with
  | [] => Ok a
  | txn :: rest =>
      if skipped start_date end_date txn
      then replay_window start_date end_date rest a
      else a' <- accumulate a txn ;; replay_window start_date end_date rest a'
  end.

(** The six unrounded figures of one item. *)
Record Figures : Type := mkFigures {
  f_opening_qty : Qc;
  f_opening_val : Qc;
  f_period_qty : Qc;
  f_period_val : Qc;
  f_closing_qty : Qc;
  f_closing_val : Qc
}.

(** The replay of one item from its stored opening balance: the advance
    to the window start, then the in-window loop. *)
Definition replay (start_date end_date : option date) (txns : list Tran)
  (base_qty base_val : Qc) : result Figures :=
  o <- opening_as_of start_date txns base_qty base_val ;;
  let opening_qty := fst o in
  let opening_val := snd o in
  r <- average_rate opening_val opening_qty ;;
  a <- replay_window start_date end_date txns
         (mkAccum (mkRunning opening_qty opening_val r) 0 0) ;;
  Ok (mkFigures opening_qty opening_val (period_qty a) (period_val a)
                (qty (running a)) (val (running a))).

(** Body of [for item in master_items], up to [closing_val = val]. *)
Definition stock_figures (db : Database) (start_date end_date : option date)
  (item : Master) : result Figures :=
  let row := folio_row db (Code item) 6 in
  replay start_date end_date (transactions_upto db (Code item) end_date)
         (folio_value row D1) (folio_value row D3).

(** One dictionary of the stock report. *)
Record StockRow : Type := mkStockRow {
  item_name : string;
  item_code : Z;
  opening_quantity : Qc;
  opening_value : Qc;
  transaction_quantity : Qc;
  transaction_value : Qc;
  closing_quantity : Qc;
  closing_value : Qc
}.

Definition stock_row (item : Master) (f : Figures) : StockRow :=
  mkStockRow (Name item) (Code item)
    (round2 (f_opening_qty f)) (round2 (f_opening_val f))
    (round2 (f_period_qty f)) (round2 (f_period_val f))
    (round2 (f_closing_qty f)) (round2 (f_closing_val f)).

(** [if not hide_zero_balance or closing_qty != 0]. *)
Definition kept (hide_zero_balance : bool) (f : Figures) : bool :=
  negb hide_zero_balance || truthy (f_closing_qty f).

Fixpoint stock_loop (db : Database) (start_date end_date : option date)
  (hide_zero_balance : bool) (items : list Master) (results : list StockRow)
  : result (list StockRow) :=
  match items with
  | [] => Ok results
  | item :: rest =>
      f <- stock_figures db start_date end_date item ;;
      stock_loop db start_date end_date hide_zero_balance rest
        (if kept hide_zero_balance f then results ++ [stock_row item f]
         else results)
  end.

Definition get_closing_stock_live (db : Database)
  (start_date end_date : option date) (hide_zero_balance : bool)
  : result (list StockRow) :=
  stock_loop db start_date end_date hide_zero_balance (master_items db 6) [].

(** ** The balance report: [get_closing_balance_live] *)

(** [SELECT SUM(Value1) FROM Tran2 WHERE MasterCode1 = c AND ...]: NULL over
    no rows. *)
Definition sum_value1 (db : Database) (c : Z) (cond : Tran -> bool)
  : option Qc :=
  match filter cond (all_transactions db c) with
  | [] => None
  | rows => Some (fold_left (fun acc t => acc + Value1 t) rows 0)
  end.

Record BalanceRow : Type := mkBalanceRow {
  b_item_name : string;
  b_item_code : Z;
  opening_balance : Qc;
  transaction_amount : Qc;
  closing_balance : Qc
}.

(** Body of [for item in master_items], up to the test
    [if total_value > 0]. *)
Definition balance_row (db : Database) (start_date end_date : option date)
  (item : Master) : BalanceRow :=
  let c := Code item in
  let base_opening_balance := folio_value (folio_row db c 2) D1 in
  let opening_balance :=
    match start_date with
    | Some sd =>
        let opening_amount := or0 (sum_value1 db c (fun t => (Date t <? sd)%Z)) in
        round2 (base_opening_balance + opening_amount)
    | None => base_opening_balance
    end in
  let closing_balance :=
    match end_date with
    | Some ed =>
        let closing_amount := or0 (sum_value1 db c (fun t => (Date t <=? ed)%Z)) in
        round2 (base_opening_balance + closing_amount)
    | None =>
        let closing_amount := or0 (sum_value1 db c (fun _ => true)) in
        round2 (base_opening_balance + closing_amount)
    end in
  let period_amount :=
    or0 (sum_value1 db c (fun t =>
      match start_date with Some sd => (Date t >=? sd)%Z | None => true end
      && match end_date with Some ed => (Date t <=? ed)%Z | None => true end)) in
  mkBalanceRow (Name item) c opening_balance period_amount closing_balance.

(** [abs(opening_balance) + abs(period_amount) + abs(closing_balance) > 0]. *)
Definition total_value_positive (r : BalanceRow) : bool :=
  ltb 0 (Py.abs (opening_balance r) + Py.abs (transaction_amount r)
         + Py.abs (closing_balance r)).

Fixpoint balance_loop (db : Database) (start_date end_date : option date)
  (items : list Master) (results : list BalanceRow) : list BalanceRow :=
  match items with
  | [] => results
  | item :: rest =>
      let r := balance_row db start_date end_date item in
      balance_loop db start_date end_date rest
        (if total_value_positive r then results ++ [r] else results)
  end.

Definition get_closing_balance_live (db : Database)
  (start_date end_date : option date) : list BalanceRow :=
  balance_loop db start_date end_date (master_items db 2) [].

(** ** The item ledger: [get_stock_ledger_live] *)

(** The [description] of a row; the formatted text is kept structured. *)
Inductive Description : Type :=
| OpeningBalanceAsOf (start_date : date)
| OpeningBalance
| VoucherTypeRecType (vch_type rec_type : Z).

(** One dictionary of the ledger. *)
Record LedgerRow : Type := mkLedgerRow {
  sno : nat;
  l_date : date;
  vchno : string;
  opamount : Qc;
  opqty : Qc;
  qtyin : Qc;
  qtyout : Qc;
  closingqty : Qc;
  closingamt : Qc;
  description : Description
}.

(** [str(idx)]. *)
Definition str_nat (n : nat) : string :=
  DecimalString.NilZero.string_of_uint (Nat.to_uint n).

(** [str(txn[5]) if txn[5] else f"TXN-{idx}"]. *)
Definition voucher_label (txn : Tran) (idx : nat) : string :=
  match VchNo txn with
  | Some EmptyString | None => ("TXN-" ++ str_nat idx)%string
  | Some s => s
  end.

(** The row [sno = 0], appended when [opening_qty > 0 or opening_val > 0].
    [today] stands for [datetime.now().date()]. *)
Definition opening_row (today : date) (start_date : option date)
  (transactions : list Tran) (opening_qty opening_val : Qc) : LedgerRow :=
  mkLedgerRow 0
    match start_date with
    | Some sd => sd
    | None => match transactions with
              | txn :: _ => Date txn
              | [] => today
              end
    end
    "Opening Balance" 0 0 opening_qty 0 opening_qty opening_val
    match start_date with
    | Some sd => OpeningBalanceAsOf sd
    | None => OpeningBalance
    end.

(** Body of [for idx, txn in enumerate(transactions, 1)]: the new running
    variables and the row appended.  The sale branch is the [else] of the
    test [txn[1] > 0] and leaves [avg_rate] as it is. *)
Definition ledger_step (s : Running) (idx : nat) (txn : Tran)
  : result (Running * LedgerRow) :=
  let op_qty := qty s in
  let op_val := val s in
  r <- (if ltb 0 (Value1 txn) then
          let running_qty := qty s + Value1 txn in
          let running_val := val s + Value3 txn in
          r <- average_rate running_val running_qty ;;
          Ok (Value1 txn, 0, mkRunning running_qty running_val r)
        else
          let qty_out := Py.abs (Value1 txn) in
          let sale_qty := Py.abs (Value1 txn) in
          let running_val := val s - sale_qty * avg_rate s in
          let running_qty := qty s - sale_qty in
          Ok (0, qty_out, mkRunning running_qty running_val (avg_rate s))) ;;
  let '(qty_in, qty_out, s') := r in
  Ok (s', mkLedgerRow idx (Date txn) (voucher_label txn idx)
            (round2 op_val) (round2 op_qty) (round2 qty_in) (round2 qty_out)
            (round2 (qty s')) (round2 (val s'))
            (VoucherTypeRecType (VchType txn) (RecType txn))).

Fixpoint ledger_loop (transactions : list Tran) (idx : nat) (s : Running)
  (ledger_data : list LedgerRow) : result (list LedgerRow) :=
  match transactions with
  | [] => Ok ledger_data
  | txn :: rest =>
      p <- ledger_step s idx txn ;;
      ledger_loop rest (S idx) (fst p) (ledger_data ++ [snd p])
  end.

(** The routine after the master row has been found. *)
Definition ledger_of (today : date) (start_date end_date : option date)
  (all_txns : list Tran) (base_qty base_val : Qc) : result (list LedgerRow) :=
  o <- opening_as_of start_date all_txns base_qty base_val ;;
  let opening_qty := fst o in
  let opening_val := snd o in
  let transactions :=
    filter (fun txn => negb (skipped start_date end_date txn)) all_txns in
  r <- average_rate opening_val opening_qty ;;
  let ledger_data :=
    if ltb 0 opening_qty || ltb 0 opening_val
    then [opening_row today start_date transactions opening_qty opening_val]%list
    else []%list in
  ledger_loop transactions 1 (mkRunning opening_qty opening_val r) ledger_data.

Definition get_stock_ledger_live (db : Database) (today : date)
  (master_code : Z) (start_date end_date : option date)
  : result (list LedgerRow) :=
  match master_row db master_code with
  | None => Ok []
  | Some _ =>
      let row := folio_row db master_code 6 in
      ledger_of today start_date end_date (all_transactions db master_code)
        (folio_value row D1) (folio_value row D3)
  end.

(** ** The item details: [get_item_details] *)

(** The dictionary with the keys [code], [name], [mastertype] and [id]. *)
Record ItemDetails : Type := mkItemDetails {
  d_code : Z;
  d_name : string;
  d_mastertype : Z;
  d_id : Z
}.

(** The query is the one of the ledger routine; [id] repeats the code. *)
Definition get_item_details (db : Database) (master_code : Z)
  : option ItemDetails :=
  match master_row db master_code with
  | Some row =>
      Some (mkItemDetails (Code row) (Name row) (MasterType row) (Code row))
  | None => None
  end.

(** ** The query of [get_item_param_stock_live] *)

(** An argument of the routine: [None], a number or a text. *)
Inductive PyValue : Type :=
| PyNone
| PyInt (z : Z)
| PyStr (s : string).

(** [bool(v)]. *)
Definition value_truthy (v : PyValue) : bool :=
  match v with
  | PyNone => false
  | PyInt z => negb (z =? 0)%Z
  | PyStr EmptyString => false
  | PyStr _ => true
  end.

(** [str(v)], as an f-string formats it. *)
Definition str_value (v : PyValue) : string :=
  match v with
  | PyNone => "None"
  | PyInt z => NilZero.string_of_int (Z.to_int z)
  | PyStr s => s
  end.

(** [f"%{v}%"]. *)
Definition like_pattern (v : PyValue) : PyValue :=
  PyStr ("%" ++ str_value v ++ "%").

Definition newline : string := String (Ascii.ascii_of_nat 10) EmptyString.

(** The text between the triple quotes, line by line. *)
Definition item_param_select : string :=
  String.concat newline
    [EmptyString;
     "            SELECT "%string;
     "                p.ItemCode as item_id,"%string;
     "                i.Name as item_name,"%string;
     "                p.VchType as vch_type,"%string;
     "                p.C1, p.C2, p.C3, p.C4, p.C5,"%string;
     "                p.D3 as mrp,"%string;
     "                p.D4 as sale_price,"%string;
     "                p.BCN as bcn,"%string;
     "                p.Value1 as quantity"%string;
     "            FROM itemParamDet p"%string;
     "            INNER JOIN Master1 i ON i.Code = p.ItemCode"%string;
     "            WHERE i.MasterType = 6"%string;
     "            "%string].

(** The query text and the parameter list handed to [cursor.execute]. *)
Definition item_param_query (item_id bcn search : PyValue)
  : string * list PyValue :=
  let query := item_param_select in
  let params := [] in
  let '(query, params) :=
    if value_truthy item_id
    then ((query ++ " AND p.ItemCode = ?")%string, params ++ [item_id])
    else (query, params) in
  let '(query, params) :=
    if value_truthy bcn
    then ((query ++ " AND p.BCN LIKE ?")%string, params ++ [like_pattern bcn])
    else (query, params) in
  let '(query, params) :=
    if value_truthy search
    then
      let search_param := like_pattern search in
      ((query ++ " AND (i.Name LIKE ? OR p.BCN LIKE ? OR p.C1 LIKE ? OR p.C2 LIKE ? OR p.C3 LIKE ? OR p.C4 LIKE ? OR p.C5 LIKE ?)")%string,
       params ++ repeat search_param 7)
    else (query, params) in
  ((query ++ " ORDER BY i.Name, p.BCN")%string, params).

(** * Notions used by the statements *)

(** The average rate in the words of the data model: [value / quantity],
    and 0 when the quantity is 0. *)
Definition guarded_rate (value quantity : Qc) : Qc :=
  if Qc_eq_dec quantity 0 then 0 else value / quantity.

(** A running state whose rate is the guarded quotient of its value and
    quantity. *)
Definition consistent (s : Running) : Prop :=
  avg_rate s = guarded_rate (val s) (qty s).

(** The fold of [advance] over a list: the replay without bounds. *)
Fixpoint advance_all (txns : list Tran) (s : Running) : result Running :=
  match txns with
  | [] => Ok s
  | txn :: rest => s' <- advance s txn ;; advance_all rest s'
  end.

(** A transaction falls within the window: [start_date <= date <= end_date],
    each bound applied only if supplied. *)
Definition in_window (start_date end_date : option date) (txn : Tran) : bool :=
  match start_date with Some sd => (sd <=? Date txn)%Z | None => true end
  && match end_date with Some ed => (Date txn <=? ed)%Z | None => true end.

(** Ascending order of the dates. *)
Definition date_le (t u : Tran) : Prop := (Date t <= Date u)%Z.

(** The closing snapshot of a replay. *)
Definition closing (f : Figures) : Qc * Qc := (f_closing_qty f, f_closing_val f).

(** A whole number of hundredths. *)
Definition two_decimals (x : Qc) : Prop := exists n : Z, x = Q2Qc (n # 100).

(** The sum of a column over a list of transactions. *)
Fixpoint total (col : Tran -> Qc) (txns : list Tran) : Qc :=
  match txns with
  | [] => 0
  | txn :: rest => col txn + total col rest
  end.

(** Starting from the quantity [q], every sale finds a nonzero quantity
    and leaves a nonzero quantity. *)
Fixpoint sales_leave_stock (q : Qc) (txns : list Tran) : Prop :=
  match txns with
  | [] => True
  | txn :: rest =>
      (Value1 txn < 0 -> q <> 0 /\ q + Value1 txn <> 0)
      /\ sales_leave_stock (q + Value1 txn) rest
  end.

(** The opening snapshot of a replay. *)
Definition opening (f : Figures) : Qc * Qc := (f_opening_qty f, f_opening_val f).

(** The rows that the ledger loop appends for [txns], started in the
    running state [s] with the number [idx]. *)
Fixpoint ledger_trace (s : Running) (idx : nat) (txns : list Tran)
  (rows : list LedgerRow) : Prop :=
  match txns, rows with
  | [], [] => True
  | txn :: txns', row :: rows' =>
      exists s',
        ledger_step s idx txn = Ok (s', row)
        /\ ledger_trace s' (S idx) txns' rows'
  | _, _ => False
  end.

(** Each row opens with the quantity and the amount at which the row
    before it closes, the first one with [q] and [v]. *)
Fixpoint chained (q v : Qc) (rows : list LedgerRow) : Prop :=
  match rows with
  | [] => True
  | row :: rest =>
      opqty row = q /\ opamount row = v
      /\ chained (closingqty row) (closingamt row) rest
  end.

(** The number of parameter markers [?] of a query text. *)
Fixpoint count_markers (q : string) : nat :=
  match q with
  | EmptyString => 0%nat
  | String c rest =>
      ((if Ascii.eqb c "?"%char then 1 else 0) + count_markers rest)%nat
  end.

(** * Sample data *)

Module Sample.

(** The integer [n] and the fraction [n / d] as column values. *)
Definition num (n : Z) : Qc := Q2Qc (inject_Z n).
Definition frac (n : Z) (d : positive) : Qc := Q2Qc (n # d).

(** Stock item 1 and a movement of it without a voucher number. *)
Definition widget : Master := mkMaster 1 "Widget" 6.

Definition movement (d : date) (quantity amount : Qc) : Tran :=
  mkTran 1 d quantity amount 0 0 None.

(** A database whose only master is [widget], without a stored opening
    balance. *)
Definition stock_db (txns : list Tran) : Database :=
  mkDatabase [widget] [] txns.

(** Stock item 3, a movement of it, and a database with both items. *)
Definition gadget : Master := mkMaster 3 "Gadget" 6.

Definition gadget_movement (d : date) (quantity amount : Qc) : Tran :=
  mkTran 3 d quantity amount 0 0 None.

Definition two_item_db (txns : list Tran) : Database :=
  mkDatabase [widget; gadget] [] txns.

(** Account 2 and a posting to it. *)
Definition cash : Master := mkMaster 2 "Cash" 2.

Definition posting (d : date) (amount : Qc) : Tran :=
  mkTran 2 d amount 0 0 0 None.

(** A database whose only master is [cash], with the stored opening
    balance [base]. *)
Definition account_db (base : Qc) (txns : list Tran) : Database :=
  mkDatabase [cash] [mkFolio 2 2 (Some base) None] txns.

(** The accumulators at the start of an in-window loop over an empty
    stock. *)
Definition empty_stock : Accum := mkAccum (mkRunning 0 0 0) 0 0.

End Sample.

(** * Proof automation *)

(** Two canonical rationals are equal when their fractions are. *)
Ltac qc_eq := apply Qc_is_canon; vm_compute; reflexivity.

(** * Properties *)

(** ** Facts about the arithmetic *)

Section Arithmetic.

Lemma truthy_true (x : Qc) : truthy x = true <-> x <> 0.
Proof.
  unfold truthy. rewrite negb_true_iff. split.
  - intros H E. subst x. discriminate H.
  - intros H. destruct (Qeq_bool x 0) eqn:E; [|reflexivity].
    apply Qeq_bool_iff in E. apply (Qc_is_canon x 0) in E. contradiction.
Qed.

Lemma truthy_false (x : Qc) : truthy x = false <-> x = 0.
Proof.
  unfold truthy. rewrite negb_false_iff. split.
  - intros H. apply Qeq_bool_iff in H. exact (Qc_is_canon x 0 H).
  - intros ->. reflexivity.
Qed.

Lemma ltb_lt (x y : Qc) : ltb x y = true <-> x < y.
Proof.
  unfold ltb, Qclt. change (x ?= y) with (Qcompare x y).
  rewrite Qlt_alt. destruct (Qcompare x y); split; congruence.
Qed.

End Arithmetic.

(** ** The guard of the average rate *)

Section Guard.

Lemma average_rate_ok (v q : Qc) : average_rate v q = Ok (guarded_rate v q).
Proof.
  unfold average_rate, Py.div, guarded_rate.
  destruct (Qc_eq_dec q 0) as [->|Hq].
  - reflexivity.
  - apply truthy_true in Hq. rewrite Hq.
    unfold truthy in Hq. apply negb_true_iff in Hq. now rewrite Hq.
Qed.

Lemma guarded_rate_zero (v : Qc) : guarded_rate v 0 = 0.
Proof. unfold guarded_rate. now destruct (Qc_eq_dec 0 0). Qed.

Lemma guarded_rate_nonzero (v q : Qc) : q <> 0 -> guarded_rate v q = v / q.
Proof. intros H. unfold guarded_rate. now destruct (Qc_eq_dec q 0). Qed.

Lemma advance_total (s : Running) (txn : Tran) :
  exists s', advance s txn = Ok s'.
Proof.
  unfold advance. rewrite !average_rate_ok. cbn [Py.bind].
  destruct (ltb 0 (Value1 txn)); [eauto|].
  destruct (ltb (Value1 txn) 0); eauto.
Qed.

Lemma advance_consistent (s s' : Running) (txn : Tran) :
  consistent s -> advance s txn = Ok s' -> consistent s'.
Proof.
  unfold advance. rewrite !average_rate_ok. cbn [Py.bind]. intros Hs.
  destruct (ltb 0 (Value1 txn)); [intros [= <-]; reflexivity|].
  destruct (ltb (Value1 txn) 0); intros [= <-]; [reflexivity|exact Hs].
Qed.

Lemma advance_all_app (l1 l2 : list Tran) (s : Running) :
  advance_all (l1 ++ l2) s = (s' <- advance_all l1 s ;; advance_all l2 s').
Proof.
  revert s. induction l1 as [|txn rest IH]; intros s; cbn [advance_all app].
  - reflexivity.
  - destruct (advance s txn); cbn [Py.bind]; [apply IH|reflexivity].
Qed.

(** The in-window loop body acts on the running state as [advance]. *)
Lemma accumulate_running (a : Accum) (txn : Tran) :
  (a' <- accumulate a txn ;; Ok (running a')) = advance (running a) txn.
Proof.
  unfold accumulate, advance. rewrite !average_rate_ok. cbn [Py.bind].
  destruct (ltb 0 (Value1 txn)); [reflexivity|].
  destruct (ltb (Value1 txn) 0); reflexivity.
Qed.

Lemma accumulate_total (a : Accum) (txn : Tran) :
  exists a', accumulate a txn = Ok a'.
Proof.
  unfold accumulate. rewrite !average_rate_ok. cbn [Py.bind].
  destruct (ltb 0 (Value1 txn)); [eauto|].
  destruct (ltb (Value1 txn) 0); eauto.
Qed.

(** The running state after the in-window loop is the replay of the
    transactions that are not skipped. *)
Lemma replay_window_running (sd ed : option date) (txns : list Tran)
  (a : Accum) :
  (a' <- replay_window sd ed txns a ;; Ok (running a'))
  = advance_all (filter (fun txn => negb (skipped sd ed txn)) txns)
      (running a).
Proof.
  revert a. induction txns as [|txn rest IH]; intros a;
    cbn [replay_window filter].
  - reflexivity.
  - destruct (skipped sd ed txn); cbn [negb]; [apply IH|].
    cbn [advance_all]. rewrite <- accumulate_running.
    destruct (accumulate_total a txn) as [a1 ->]. cbn [Py.bind]. apply IH.
Qed.

Lemma replay_window_total (sd ed : option date) (txns : list Tran)
  (a : Accum) : exists a', replay_window sd ed txns a = Ok a'.
Proof.
  revert a. induction txns as [|txn rest IH]; intros a; cbn [replay_window].
  - eauto.
  - destruct (skipped sd ed txn); [apply IH|].
    destruct (accumulate_total a txn) as [a1 ->]. cbn [Py.bind]. apply IH.
Qed.

Lemma advance_to_total (sd : date) (txns : list Tran) (s : Running) :
  exists s', advance_to sd txns s = Ok s'.
Proof.
  revert s. induction txns as [|txn rest IH]; intros s; cbn [advance_to].
  - eauto.
  - destruct (sd <=? Date txn)%Z; [eauto|].
    destruct (advance_total s txn) as [s1 ->]. cbn [Py.bind]. apply IH.
Qed.

Lemma advance_to_consistent (sd : date) (txns : list Tran) (s s' : Running) :
  consistent s -> advance_to sd txns s = Ok s' -> consistent s'.
Proof.
  revert s. induction txns as [|txn rest IH]; intros s Hs; cbn [advance_to].
  - now intros [= <-].
  - destruct (sd <=? Date txn)%Z; [now intros [= <-]|].
    destruct (advance_total s txn) as [s1 E]. rewrite E. cbn [Py.bind].
    apply IH. exact (advance_consistent _ _ _ Hs E).
Qed.

Lemma opening_as_of_total (sd : option date) (txns : list Tran)
  (bq bv : Qc) : exists oq ov, opening_as_of sd txns bq bv = Ok (oq, ov).
Proof.
  unfold opening_as_of. destruct sd as [d|]; [|eauto].
  rewrite average_rate_ok. cbn [Py.bind].
  destruct (advance_to_total d txns (mkRunning bq bv (guarded_rate bv bq)))
    as [s ->].
  cbn [Py.bind]. eauto.
Qed.

Lemma replay_total (sd ed : option date) (txns : list Tran) (bq bv : Qc) :
  exists f, replay sd ed txns bq bv = Ok f.
Proof.
  unfold replay.
  destruct (opening_as_of_total sd txns bq bv) as (oq & ov & ->).
  cbn [Py.bind fst snd]. rewrite average_rate_ok. cbn [Py.bind].
  destruct (replay_window_total sd ed txns
              (mkAccum (mkRunning oq ov (guarded_rate ov oq)) 0 0)) as [a ->].
  cbn [Py.bind]. eauto.
Qed.

End Guard.

(** ** Splitting a sorted replay at a date *)

Section Split.

Lemma sorted_strongly (txns : list Tran) :
  Sorted date_le txns -> StronglySorted date_le txns.
Proof.
  apply Sorted_StronglySorted. intros t u v. unfold date_le. lia.
Qed.

Lemma none_before (sd : date) (txn : Tran) (rest : list Tran) :
  (sd <= Date txn)%Z -> Forall (date_le txn) rest ->
  filter (fun u => (Date u <? sd)%Z) rest = []%list.
Proof.
  intros Hle Hall. induction Hall as [|u l Hu _ IHl]; cbn [filter].
  - reflexivity.
  - unfold date_le in Hu.
    assert (Hu' : (Date u <? sd)%Z = false) by (apply Z.ltb_ge; lia).
    now rewrite Hu'.
Qed.

Lemma all_from (sd : date) (txn : Tran) (rest : list Tran) :
  (sd <= Date txn)%Z -> Forall (date_le txn) rest ->
  filter (fun u => negb (skipped (Some sd) None u)) rest = rest.
Proof.
  intros Hle Hall. induction Hall as [|u l Hu _ IHl]; cbn [filter].
  - reflexivity.
  - unfold date_le in Hu. unfold skipped at 1.
    assert (Hu' : (Date u <? sd)%Z = false) by (apply Z.ltb_ge; lia).
    rewrite Hu'. cbn [orb negb]. now f_equal.
Qed.

(** On a sorted list the early [break] stops exactly where the dates
    reach [sd]. *)
Lemma advance_to_before (sd : date) (txns : list Tran) (s : Running) :
  StronglySorted date_le txns ->
  advance_to sd txns s
  = advance_all (filter (fun txn => (Date txn <? sd)%Z) txns) s.
Proof.
  intros Hs. revert s.
  induction Hs as [|txn rest Hrest IH Hall]; intros s;
    cbn [advance_to filter].
  - reflexivity.
  - destruct (Z.leb_spec sd (Date txn)) as [Hle|Hlt].
    + assert (Hlt : (Date txn <? sd)%Z = false) by now apply Z.ltb_ge.
      now rewrite Hlt, (none_before sd txn rest Hle Hall).
    + apply Z.ltb_lt in Hlt. rewrite Hlt. cbn [advance_all].
      destruct (advance s txn); cbn [Py.bind]; [apply IH|reflexivity].
Qed.

(** A sorted list is its part before [sd] followed by the part kept by
    the window that starts at [sd]. *)
Lemma sorted_partition (sd : date) (txns : list Tran) :
  StronglySorted date_le txns ->
  (filter (fun txn => (Date txn <? sd)%Z) txns
   ++ filter (fun txn => negb (skipped (Some sd) None txn)) txns)%list
  = txns.
Proof.
  intros Hs. induction Hs as [|txn rest Hrest IH Hall]; cbn [filter app].
  - reflexivity.
  - unfold skipped at 1.
    destruct (Z.ltb_spec (Date txn) sd) as [Hlt|Hge]; cbn [orb negb app].
    + now f_equal.
    + rewrite (none_before sd txn rest Hge Hall).
      rewrite (all_from sd txn rest Hge Hall). reflexivity.
Qed.

Lemma nothing_skipped (txns : list Tran) :
  filter (fun txn => negb (skipped None None txn)) txns = txns.
Proof.
  induction txns as [|txn rest IH]; cbn [filter skipped orb negb].
  - reflexivity.
  - now f_equal.
Qed.

End Split.

(** ** The closing snapshot of a replay *)

Section Closing.

Lemma replay_closing (sd ed : option date) (txns : list Tran) (bq bv : Qc)
  (f : Figures) :
  replay sd ed txns bq bv = Ok f ->
  exists oq ov s,
    opening_as_of sd txns bq bv = Ok (oq, ov)
    /\ advance_all (filter (fun txn => negb (skipped sd ed txn)) txns)
         (mkRunning oq ov (guarded_rate ov oq)) = Ok s
    /\ f_opening_qty f = oq /\ f_opening_val f = ov
    /\ f_closing_qty f = qty s /\ f_closing_val f = val s.
Proof.
  unfold replay.
  destruct (opening_as_of_total sd txns bq bv) as (oq & ov & ->).
  cbn [Py.bind fst snd]. rewrite average_rate_ok. cbn [Py.bind].
  pose proof (replay_window_running sd ed txns
                (mkAccum (mkRunning oq ov (guarded_rate ov oq)) 0 0)) as R.
  destruct (replay_window_total sd ed txns
              (mkAccum (mkRunning oq ov (guarded_rate ov oq)) 0 0)) as [a E].
  rewrite E in *. cbn [Py.bind running] in *. intros [= <-].
  exists oq, ov, (running a). cbn. symmetry in R. auto 10.
Qed.

Lemma opening_as_of_before (d : date) (txns : list Tran) (bq bv oq ov : Qc) :
  StronglySorted date_le txns ->
  opening_as_of (Some d) txns bq bv = Ok (oq, ov) ->
  advance_all (filter (fun txn => (Date txn <? d)%Z) txns)
    (mkRunning bq bv (guarded_rate bv bq))
  = Ok (mkRunning oq ov (guarded_rate ov oq)).
Proof.
  intros Hs. unfold opening_as_of. rewrite average_rate_ok. cbn [Py.bind].
  rewrite <- (advance_to_before d txns (mkRunning bq bv (guarded_rate bv bq)) Hs).
  destruct (advance_to_total d txns (mkRunning bq bv (guarded_rate bv bq)))
    as [s E].
  rewrite E. cbn [Py.bind]. intros [= <- <-].
  assert (C : consistent s).
  { apply (advance_to_consistent d txns (mkRunning bq bv (guarded_rate bv bq)) s);
      [reflexivity|exact E]. }
  unfold consistent in C. rewrite <- C. now destruct s.
Qed.

End Closing.

(** ** The loops over the catalogue *)

Section Reports.

Lemma stock_figures_total (db : Database) (sd ed : option date)
  (item : Master) : exists f, stock_figures db sd ed item = Ok f.
Proof. apply replay_total. Qed.

Lemma stock_loop_total (db : Database) (sd ed : option date) (hide : bool)
  (items : list Master) (results : list StockRow) :
  exists rows, stock_loop db sd ed hide items results = Ok rows.
Proof.
  revert results. induction items as [|item rest IH]; intros results;
    cbn [stock_loop].
  - eauto.
  - destruct (stock_figures_total db sd ed item) as [f ->]. cbn [Py.bind].
    apply IH.
Qed.

Lemma get_closing_stock_live_total (db : Database) (sd ed : option date)
  (hide : bool) :
  exists rows, get_closing_stock_live db sd ed hide = Ok rows.
Proof. apply stock_loop_total. Qed.

(** Every row of the report is the rounded figures of a catalogue item
    that passed the test on its closing quantity. *)
Lemma stock_loop_In (db : Database) (sd ed : option date) (hide : bool)
  (items : list Master) (results rows : list StockRow) (row : StockRow) :
  stock_loop db sd ed hide items results = Ok rows ->
  In row rows ->
  In row results
  \/ exists item f,
       In item items /\ stock_figures db sd ed item = Ok f
       /\ kept hide f = true /\ row = stock_row item f.
Proof.
  revert results. induction items as [|item rest IH]; intros results;
    cbn [stock_loop].
  - intros [= <-]. now left.
  - destruct (stock_figures_total db sd ed item) as [f E]. rewrite E.
    cbn [Py.bind]. intros L Hin.
    destruct (IH _ L Hin) as [Hres|(item' & f' & Hi & Hf & Hk & Hr)].
    + destruct (kept hide f) eqn:K.
      * apply in_app_or in Hres. destruct Hres as [Hres|[<-|[]]].
        -- now left.
        -- right. exists item, f. cbn [In]. auto.
      * now left.
    + right. exists item', f'. cbn [In]. auto.
Qed.


End Reports.

(** ** The ledger loop *)

Section Ledger.

Lemma skipped_in_window (sd ed : option date) (txn : Tran) :
  negb (skipped sd ed txn) = in_window sd ed txn.
Proof.
  unfold skipped, in_window. rewrite negb_orb. f_equal.
  - destruct sd as [d|]; [|reflexivity].
    now rewrite Z.ltb_antisym, negb_involutive.
  - destruct ed as [d|]; [|reflexivity].
    now rewrite Z.gtb_ltb, Z.ltb_antisym, negb_involutive.
Qed.

Lemma ledger_step_total (s : Running) (idx : nat) (txn : Tran) :
  exists s' row, ledger_step s idx txn = Ok (s', row).
Proof.
  unfold ledger_step. rewrite average_rate_ok. cbn [Py.bind].
  destruct (ltb 0 (Value1 txn)); cbn [Py.bind]; eauto.
Qed.

Lemma ledger_step_sno (s s' : Running) (idx : nat) (txn : Tran)
  (row : LedgerRow) :
  ledger_step s idx txn = Ok (s', row) -> sno row = idx.
Proof.
  unfold ledger_step. rewrite average_rate_ok.
  destruct (ltb 0 (Value1 txn)); cbn [Py.bind]; now intros [= _ <-].
Qed.

(** The loop appends one row per transaction, numbered from [idx]. *)
Lemma ledger_loop_rows (txns : list Tran) (idx : nat) (s : Running)
  (data : list LedgerRow) :
  exists new,
    ledger_loop txns idx s data = Ok (data ++ new)
    /\ List.length new = List.length txns
    /\ Forall (fun row => (idx <= sno row)%nat) new.
Proof.
  revert idx s data. induction txns as [|txn rest IH]; intros idx s data;
    cbn [ledger_loop].
  - exists []. rewrite app_nil_r. auto.
  - destruct (ledger_step_total s idx txn) as (s' & row & E).
    pose proof (ledger_step_sno _ _ _ _ _ E) as Hsno.
    rewrite E. cbn [Py.bind fst snd].
    destruct (IH (S idx) s' (data ++ [row])) as (new & L & Hlen & Hall).
    exists (row :: new). rewrite L, <- app_assoc. cbn [app List.length].
    split; [reflexivity|]. split; [now rewrite Hlen|].
    constructor; [lia|].
    eapply Forall_impl; [|exact Hall]. cbn. intros; lia.
Qed.

Lemma ledger_loop_total (txns : list Tran) (idx : nat) (s : Running)
  (data : list LedgerRow) :
  exists rows, ledger_loop txns idx s data = Ok rows.
Proof.
  destruct (ledger_loop_rows txns idx s data) as (new & E & _). eauto.
Qed.

Lemma ledger_of_total (today : date) (sd ed : option date)
  (txns : list Tran) (bq bv : Qc) :
  exists rows, ledger_of today sd ed txns bq bv = Ok rows.
Proof.
  unfold ledger_of.
  destruct (opening_as_of_total sd txns bq bv) as (oq & ov & ->).
  cbn [Py.bind fst snd]. rewrite average_rate_ok. cbn [Py.bind].
  apply ledger_loop_total.
Qed.

Lemma get_stock_ledger_live_total (db : Database) (today : date)
  (master_code : Z) (sd ed : option date) :
  exists rows, get_stock_ledger_live db today master_code sd ed = Ok rows.
Proof.
  unfold get_stock_ledger_live.
  destruct (master_row db master_code); [apply ledger_of_total|eauto].
Qed.

End Ledger.

(** ** Rounding to two decimals *)

Section Rounding.

Lemma round_half_even_close (x : Q) :
  (inject_Z (round_half_even x) - (1 # 2) <= x
   /\ x <= inject_Z (round_half_even x) + (1 # 2))%Q.
Proof.
  unfold round_half_even.
  pose proof (Qfloor_le x) as Hlo. pose proof (Qlt_floor x) as Hhi.
  rewrite inject_Z_plus in Hhi. change (inject_Z 1) with 1%Q in Hhi.
  destruct (Qcompare (x - inject_Z (Qfloor x)) (1 # 2)) eqn:C.
  - apply Qeq_alt in C.
    destruct (Z.even (Qfloor x)); rewrite ?inject_Z_plus;
      change (inject_Z 1) with 1%Q; lra.
  - apply Qlt_alt in C. lra.
  - apply Qgt_alt in C. rewrite inject_Z_plus.
    change (inject_Z 1) with 1%Q. lra.
Qed.

(** [round2] moves a number by at most half a hundredth. *)
Lemma round2_close (x : Qc) :
  (this (round2 x) - (1 # 200) <= x /\ x <= this (round2 x) + (1 # 200))%Q.
Proof.
  unfold round2. cbn [this Q2Qc].
  pose proof (round_half_even_close (x * 100)) as [Hlo Hhi].
  set (n := round_half_even (x * 100)) in *.
  pose proof (Qred_correct (n # 100)) as R.
  assert (E : (n # 100 == inject_Z n * (1 # 100))%Q).
  { unfold Qeq, inject_Z, Qmult. cbn. lia. }
  set (r := Qred (n # 100)) in *. clearbody r. rewrite E in R. clear E.
  set (z := inject_Z n) in *. clearbody z. split; lra.
Qed.

Lemma round2_two_decimals (x : Qc) : two_decimals (round2 x).
Proof. unfold two_decimals, round2. eauto. Qed.

(** A whole number of hundredths is left as it is. *)
Lemma round2_fixes_two_decimals (x : Qc) : two_decimals x -> round2 x = x.
Proof.
  intros [n ->]. unfold round2. apply Q2Qc_eq_iff.
  assert (E : (Q2Qc (n # 100) * 100 == inject_Z n)%Q).
  { cbn [this Q2Qc]. pose proof (Qred_correct (n # 100)) as R.
    assert (E : (n # 100 == inject_Z n * (1 # 100))%Q).
    { unfold Qeq, inject_Z, Qmult. cbn. lia. }
    set (r := Qred (n # 100)) in *. clearbody r. rewrite E in R. clear E.
    set (z := inject_Z n) in *. clearbody z. lra. }
  assert (R : round_half_even (Q2Qc (n # 100) * 100)%Q = n).
  { unfold round_half_even.
    assert (F : Qfloor (Q2Qc (n # 100) * 100)%Q = n).
    { rewrite (Qfloor_comp _ _ E). apply Qfloor_Z. }
    rewrite F.
    assert (C : Qcompare (Q2Qc (n # 100) * 100 - inject_Z n) (1 # 2) = Lt).
    { apply (proj1 (Qlt_alt _ _)).
      set (y := (Q2Qc (n # 100) * 100)%Q) in *. clearbody y.
      set (z := inject_Z n) in *. clearbody z. lra. }
    now rewrite C. }
  now rewrite R.
Qed.

End Rounding.

(** ** The sale branch *)

Section Outflow.

Lemma not_positive_of_neg (x : Qc) : x < 0 -> ltb 0 x = false.
Proof.
  intros Hneg. destruct (ltb 0 x) eqn:E; [|reflexivity].
  apply ltb_lt in E. exfalso.
  exact (Qclt_not_le _ _ Hneg (Qclt_le_weak _ _ E)).
Qed.

(** What the sale branch of the in-window loop computes: the period
    value is reduced by the quantity sold times the rate as reassigned. *)
Lemma accumulate_sale (a : Accum) (txn : Tran) :
  Value1 txn < 0 ->
  exists a',
    accumulate a txn = Ok a'
    /\ qty (running a') = qty (running a) - Py.abs (Value1 txn)
    /\ val (running a')
       = val (running a) - Py.abs (Value1 txn) * avg_rate (running a)
    /\ avg_rate (running a')
       = guarded_rate (val (running a')) (qty (running a'))
    /\ period_qty a' = period_qty a + Value1 txn
    /\ period_val a'
       = period_val a - Py.abs (Value1 txn) * avg_rate (running a').
Proof.
  intros Hneg. unfold accumulate.
  rewrite (not_positive_of_neg _ Hneg).
  apply ltb_lt in Hneg. rewrite Hneg, average_rate_ok. cbn [Py.bind].
  eexists. split; [reflexivity|]. cbn. auto 10.
Qed.

(** The quotient is unchanged by a withdrawal valued at the quotient. *)
Lemma rate_after_outflow (v q out : Qc) :
  q <> 0 -> q - out <> 0 ->
  guarded_rate (v - out * (v / q)) (q - out) = v / q.
Proof.
  intros Hq Hq'. rewrite guarded_rate_nonzero by exact Hq'.
  field. split; assumption.
Qed.

End Outflow.

(** * The replay on the sample scenario *)

Import Sample.

(** C1.  From an empty stock and without window bounds, the movements
    [+10] for 100, [-4] and [+5] for 60, on any dates, give: rate 10 after
    the first; a consumed value of 4 * 10 = 40, quantity 6 and value 60
    after the second; quantity 11 and value 120 after the third, which is
    the closing snapshot of the replay and of the report row. *)
Theorem concrete_scenario (d1 d2 d3 : date) (amount : Qc) :
  let t1 := movement d1 (num 10) (num 100) in
  let t2 := movement d2 (num (-4)) amount in
  let t3 := movement d3 (num 5) (num 60) in
  exists a1 a2 a3 f row,
    replay_window None None [t1] empty_stock = Ok a1
    /\ avg_rate (running a1) = num 10
    /\ replay_window None None [t1; t2] empty_stock = Ok a2
    /\ Py.abs (Value1 t2) * avg_rate (running a1) = num 40
    /\ val (running a1) - val (running a2) = num 40
    /\ qty (running a2) = num 6 /\ val (running a2) = num 60
    /\ replay_window None None [t1; t2; t3] empty_stock = Ok a3
    /\ qty (running a3) = num 11 /\ val (running a3) = num 120
    /\ replay None None [t1; t2; t3] 0 0 = Ok f
    /\ closing f = (num 11, num 120)
    /\ get_closing_stock_live (stock_db [t1; t2; t3]) None None false
       = Ok [row]
    /\ closing_quantity row = num 11 /\ closing_value row = num 120.
Proof.
  intros t1 t2 t3.
  destruct (replay_window_total None None [t1] empty_stock) as [a1 E1].
  destruct (replay_window_total None None [t1; t2] empty_stock) as [a2 E2].
  destruct (replay_window_total None None [t1; t2; t3] empty_stock)
    as [a3 E3].
  destruct (replay_total None None [t1; t2; t3] 0 0) as [f Ef].
  destruct (get_closing_stock_live_total (stock_db [t1; t2; t3]) None None
              false) as [rows Er].
  rewrite E1, E2, E3, Ef, Er.
  vm_compute in E1, E2, E3, Ef, Er.
  injection E1 as <-. injection E2 as <-. injection E3 as <-.
  injection Ef as <-. injection Er as <-.
  do 5 eexists.
  repeat split; try reflexivity; try qc_eq.
Qed.

(** * The period value of a sale *)

(** C2.  The sale branch of the in-window loop reassigns [avg_rate] before
    it reduces the period value.  Selling the whole stock of 10 bought for
    100 takes 10 * 10 = 100 off the running value and nothing off the
    period value: the report shows a period value of 100 between an
    opening and a closing value of 0. *)
Theorem period_value_uses_reassigned_rate :
  let t1 := movement 1 (num 10) (num 100) in
  let t2 := movement 2 (num (-10)) 0 in
  exists a1 a2 row,
    accumulate empty_stock t1 = Ok a1
    /\ accumulate a1 t2 = Ok a2
    /\ Py.abs (Value1 t2) * avg_rate (running a1) = num 100
    /\ val (running a1) - val (running a2) = num 100
    /\ period_val a1 - period_val a2 = 0
    /\ get_closing_stock_live (stock_db [t1; t2]) None None false = Ok [row]
    /\ opening_value row = 0
    /\ transaction_value row = num 100
    /\ closing_value row = 0.
Proof.
  intros t1 t2.
  destruct (accumulate_total empty_stock t1) as [a1 E1].
  destruct (accumulate_total a1 t2) as [a2 E2].
  exists a1, a2. rewrite E1, E2.
  vm_compute in E1. injection E1 as <-.
  vm_compute in E2. injection E2 as <-.
  destruct (get_closing_stock_live_total (stock_db [t1; t2]) None None false)
    as [rows Er].
  rewrite Er. vm_compute in Er. injection Er as <-.
  eexists. repeat split; try reflexivity; try qc_eq.
Qed.

(** * The two read paths *)

(** C3.  The ledger loop does not reassign [avg_rate] after a sale, the
    report loop does.  After the whole stock of 10 bought for 100 is sold
    and 5 more are sold, the report closes at quantity -5 and value 0, the
    last ledger row at quantity -5 and value -50. *)
Theorem ledger_keeps_rate_after_sale (today : date) :
  let t1 := movement 1 (num 10) (num 100) in
  let t2 := movement 2 (num (-10)) 0 in
  let t3 := movement 3 (num (-5)) 0 in
  let db := stock_db [t1; t2; t3] in
  exists row front final,
    get_closing_stock_live db None None false = Ok [row]
    /\ get_stock_ledger_live db today 1 None None = Ok (front ++ [final])
    /\ closing_quantity row = num (-5) /\ closingqty final = num (-5)
    /\ closing_value row = 0 /\ closingamt final = num (-50).
Proof.
  intros t1 t2 t3 db.
  destruct (get_closing_stock_live_total db None None false) as [rows1 E1].
  destruct (get_stock_ledger_live_total db today 1 None None) as [rows2 E2].
  pose proof E1 as C1. vm_compute in C1. injection C1 as <-.
  pose proof E2 as C2. vm_compute in C2. injection C2 as <-.
  match type of E1 with
  | _ = Ok [?r] => exists r
  end.
  match type of E2 with
  | _ = Ok [?r1; ?r2; ?r3] => exists [r1; r2], r3
  end.
  split; [exact E1|]. split; [exact E2|].
  repeat split; qc_eq.
Qed.

(** * The rate across an outflow *)

(** C4, as amended.  An outflow applied to a running state of nonzero
    quantity whose rate is value / quantity takes quantity * rate off the
    value at the rate in force before it, and leaves the rate unchanged
    whenever the quantity after it is nonzero (the rate becomes 0 when the
    quantity reaches 0); this holds in the advance to the window start and
    in the in-window loop, and the ledger loop does not touch the rate. *)
Theorem outflow_keeps_rate (s : Running) (txn : Tran) :
  qty s <> 0 -> avg_rate s = val s / qty s -> Value1 txn < 0 ->
  (exists s',
     advance s txn = Ok s'
     /\ val s' = val s - Py.abs (Value1 txn) * avg_rate s
     /\ qty s' = qty s - Py.abs (Value1 txn)
     /\ (qty s' <> 0 -> avg_rate s' = avg_rate s)
     /\ (qty s' = 0 -> avg_rate s' = 0))
  /\ (forall pq pv, exists a',
        accumulate (mkAccum s pq pv) txn = Ok a'
        /\ val (running a') = val s - Py.abs (Value1 txn) * avg_rate s
        /\ qty (running a') = qty s - Py.abs (Value1 txn)
        /\ (qty (running a') <> 0 -> avg_rate (running a') = avg_rate s)
        /\ (qty (running a') = 0 -> avg_rate (running a') = 0))
  /\ (forall idx, exists s' row,
        ledger_step s idx txn = Ok (s', row)
        /\ val s' = val s - Py.abs (Value1 txn) * avg_rate s
        /\ qty s' = qty s - Py.abs (Value1 txn)
        /\ avg_rate s' = avg_rate s).
Proof.
  intros Hq Hr Hneg.
  pose proof (not_positive_of_neg _ Hneg) as H0.
  pose proof (proj2 (ltb_lt _ _) Hneg) as H1.
  assert (Keep : qty s - Py.abs (Value1 txn) <> 0 ->
                 guarded_rate (val s - Py.abs (Value1 txn) * avg_rate s)
                   (qty s - Py.abs (Value1 txn)) = avg_rate s).
  { intros Hq'. rewrite Hr. now apply rate_after_outflow. }
  assert (Drop : qty s - Py.abs (Value1 txn) = 0 ->
                 guarded_rate (val s - Py.abs (Value1 txn) * avg_rate s)
                   (qty s - Py.abs (Value1 txn)) = 0).
  { intros ->. apply guarded_rate_zero. }
  split; [|split].
  - unfold advance. rewrite H0, H1, average_rate_ok. cbn [Py.bind].
    eexists. split; [reflexivity|]. cbn [qty val avg_rate]. auto.
  - intros pq pv. unfold accumulate. cbn [running].
    rewrite H0, H1, average_rate_ok. cbn [Py.bind].
    eexists. split; [reflexivity|]. cbn [running qty val avg_rate]. auto.
  - intros idx. unfold ledger_step. rewrite H0. cbn [Py.bind].
    do 2 eexists. split; [reflexivity|]. cbn [qty val avg_rate]. auto.
Qed.

(** The sale of 4 out of a stock of 10 worth 100 leaves the rate at 10. *)
Lemma outflow_keeps_rate_witness :
  let s := mkRunning (num 10) (num 100) (num 10) in
  let txn := movement 2 (num (-4)) 0 in
  (qty s <> 0 /\ avg_rate s = val s / qty s /\ Value1 txn < 0)
  /\ exists s', advance s txn = Ok s' /\ avg_rate s' = num 10.
Proof.
  intros s txn.
  assert (Hq : qty s <> 0) by (apply truthy_true; reflexivity).
  assert (Hr : avg_rate s = val s / qty s) by qc_eq.
  assert (Hneg : Value1 txn < 0) by reflexivity.
  split; [auto|].
  destruct (outflow_keeps_rate s txn Hq Hr Hneg)
    as [(s' & E & _ & Q & Keep & _) _].
  exists s'. split; [exact E|].
  rewrite Keep; [reflexivity|].
  rewrite Q. apply truthy_true. reflexivity.
Defined.

(** A stock of quantity 0 and value 50, reached from the empty stock by a
    sale of 5 and a purchase of 5 for 50, has the guarded rate 0; a sale
    of 2 leaves the quantity at -2 and moves the rate to -25. *)
Lemma outflow_from_zero_quantity_changes_rate :
  let s := mkRunning 0 (num 50) 0 in
  let txn := movement 3 (num (-2)) 0 in
  advance_to 3 [movement 1 (num (-5)) 0; movement 2 (num 5) (num 50)]
    (mkRunning 0 0 0) = Ok s
  /\ avg_rate s = guarded_rate (val s) (qty s)
  /\ Value1 txn < 0
  /\ exists s',
       advance s txn = Ok s'
       /\ qty s' = num (-2) /\ qty s' <> 0
       /\ avg_rate s = 0 /\ avg_rate s' = num (-25)
       /\ avg_rate s' <> avg_rate s.
Proof.
  intros s txn. split; [|split; [|split]].
  - vm_compute. do 2 f_equal; apply Qc_is_canon; reflexivity.
  - reflexivity.
  - reflexivity.
  - destruct (advance_total s txn) as [s' E]. exists s'.
    split; [exact E|]. vm_compute in E. injection E as <-.
    split; [qc_eq|]. split; [apply truthy_true; reflexivity|].
    split; [reflexivity|]. split; [qc_eq|].
    intros H. apply (f_equal this) in H. discriminate H.
Qed.

(** * Splitting the window *)

(** C5.  For every stored opening balance, every transaction list in
    ascending order of date and every date [d], the replay without bounds
    and the replay with the window [(d, None)] both return, with the same
    closing quantity and closing value. *)
Theorem window_decomposition (txns : list Tran) (bq bv : Qc) (d : date) :
  Sorted date_le txns ->
  exists f1 f2,
    replay None None txns bq bv = Ok f1
    /\ replay (Some d) None txns bq bv = Ok f2
    /\ closing f1 = closing f2.
Proof.
  intros Hs. apply sorted_strongly in Hs.
  destruct (replay_total None None txns bq bv) as [f1 E1].
  destruct (replay_total (Some d) None txns bq bv) as [f2 E2].
  exists f1, f2. split; [exact E1|]. split; [exact E2|].
  apply replay_closing in E1.
  destruct E1 as (oq1 & ov1 & s1 & O1 & A1 & _ & _ & Q1 & V1).
  apply replay_closing in E2.
  destruct E2 as (oq2 & ov2 & s2 & O2 & A2 & _ & _ & Q2 & V2).
  cbn [opening_as_of] in O1. injection O1 as <- <-.
  rewrite nothing_skipped in A1.
  apply (opening_as_of_before d txns bq bv oq2 ov2 Hs) in O2.
  rewrite <- (sorted_partition d txns Hs), advance_all_app, O2 in A1.
  cbn [Py.bind] in A1. rewrite A2 in A1. injection A1 as <-.
  unfold closing. now rewrite Q1, V1, Q2, V2.
Qed.

(** The sample scenario split at the date of its sale. *)
Lemma window_decomposition_witness :
  let txns := [movement 1 (num 10) (num 100); movement 2 (num (-4)) 0;
               movement 3 (num 5) (num 60)] in
  Sorted date_le txns
  /\ exists f1 f2,
       replay None None txns 0 0 = Ok f1
       /\ replay (Some 2) None txns 0 0 = Ok f2
       /\ closing f1 = closing f2.
Proof.
  intros txns.
  assert (Hs : Sorted date_le txns).
  { repeat constructor; unfold date_le; cbn; lia. }
  split; [exact Hs|].
  exact (window_decomposition txns 0 0 2 Hs).
Defined.

(** * The rows of the ledger *)

(** C6, as amended.  Every ledger request returns; for an unknown item
    the ledger is empty, and for a stock item the number of rows is the
    number of transactions within the window, plus 1 if the opening
    quantity or the opening value as of the window start is greater than
    0 and plus 0 otherwise; a row numbered 0 is present exactly in the
    first case. *)
Theorem ledger_row_count (db : Database) (today : date) (master_code : Z)
  (sd ed : option date) :
  exists rows,
    get_stock_ledger_live db today master_code sd ed = Ok rows
    /\ match master_row db master_code with
       | None => rows = []
       | Some _ =>
           let txns := all_transactions db master_code in
           let row := folio_row db master_code 6 in
           exists oq ov,
             opening_as_of sd txns (folio_value row D1) (folio_value row D3)
             = Ok (oq, ov)
             /\ List.length rows
                = (List.length (filter (in_window sd ed) txns)
                   + (if ltb 0 oq || ltb 0 ov then 1 else 0))%nat
             /\ ((exists r, In r rows /\ sno r = 0%nat) <-> 0 < oq \/ 0 < ov)
       end.
Proof.
  unfold get_stock_ledger_live.
  destruct (master_row db master_code) as [m|]; [|exists []; auto].
  cbv zeta. unfold ledger_of.
  destruct (opening_as_of_total sd (all_transactions db master_code)
              (folio_value (folio_row db master_code 6) D1)
              (folio_value (folio_row db master_code 6) D3))
    as (oq & ov & ->).
  cbn [Py.bind fst snd]. rewrite average_rate_ok. cbn [Py.bind].
  match goal with
  | |- context [ledger_loop ?l ?i ?s ?d] =>
      destruct (ledger_loop_rows l i s d) as (new & E & Hlen & Hall)
  end.
  rewrite E. eexists. split; [reflexivity|]. exists oq, ov.
  split; [reflexivity|].
  rewrite List.length_app, Hlen.
  rewrite (filter_ext _ _ (skipped_in_window sd ed)).
  rewrite <- !ltb_lt, <- orb_true_iff.
  destruct (ltb 0 oq || ltb 0 ov); cbn [List.length].
  - split; [lia|]. split; [reflexivity|]. intros _.
    eexists. split; [apply in_or_app; left; left; reflexivity|reflexivity].
  - split; [lia|]. split; [|discriminate].
    intros (r & Hin & Hr). cbn [app] in Hin.
    rewrite Forall_forall in Hall. specialize (Hall r Hin). lia.
Qed.

(** A sale of 5 from the empty stock before the window start leaves the
    opening quantity at -5: the opening balance is nonzero, no transaction
    falls within the window, and the ledger has no row. *)
Lemma negative_opening_has_no_opening_row :
  let db := stock_db [movement 1 (num (-5)) 0] in
  let txns := all_transactions db 1 in
  opening_as_of (Some 2) txns 0 0 = Ok (num (-5), 0)
  /\ num (-5) <> 0
  /\ get_stock_ledger_live db 9 1 (Some 2) None = Ok []
  /\ List.length (@nil LedgerRow)
     <> Nat.add (List.length (filter (in_window (Some 2) None) txns)) 1.
Proof.
  intros db txns. split; [|split; [|split]].
  - vm_compute. do 2 f_equal; apply Qc_is_canon; reflexivity.
  - apply truthy_true. reflexivity.
  - vm_compute. reflexivity.
  - vm_compute. discriminate.
Qed.

(** * Hiding the items without stock *)

(** A closing quantity of 0.004 rounds to 0.00 and the item keeps its row,
    with [hide_zero_balance] set. *)
Lemma closing_that_rounds_to_zero_is_kept :
  let db := stock_db [movement 1 (frac 1 250) (num 1)] in
  exists f row,
    stock_figures db None None widget = Ok f
    /\ f_closing_qty f = frac 1 250
    /\ round2 (f_closing_qty f) = 0
    /\ get_closing_stock_live db None None true = Ok [row]
    /\ item_code row = Code widget
    /\ closing_quantity row = 0.
Proof.
  intros db.
  destruct (stock_figures_total db None None widget) as [f Ef].
  destruct (get_closing_stock_live_total db None None true) as [rows Er].
  rewrite Er. vm_compute in Ef, Er. injection Ef as <-. injection Er as <-.
  do 2 eexists. repeat split; try reflexivity; qc_eq.
Qed.

(** * Rounding in the balance report *)


(** * Unknown items *)

(** C9.  A ledger request for a code that no master of type 6 carries
    returns the empty ledger, for every window. *)
Theorem unknown_item_empty_ledger (db : Database) (today : date)
  (master_code : Z) (sd ed : option date) :
  (forall m, In m (Master1 db) -> Code m = master_code -> MasterType m <> 6%Z) ->
  get_stock_ledger_live db today master_code sd ed = Ok [].
Proof.
  intros Hnone. unfold get_stock_ledger_live.
  destruct (master_row db master_code) as [m|] eqn:E; [|reflexivity].
  unfold master_row in E. apply find_some in E. destruct E as [Hin Hm].
  apply andb_true_iff in Hm. destruct Hm as [Hc Ht].
  apply Z.eqb_eq in Hc, Ht. elim (Hnone m Hin Hc Ht).
Qed.

(** The code of an account, which has postings, is not the code of a
    stock item. *)
Lemma unknown_item_empty_ledger_witness :
  let db := account_db 0 [posting 1 (num 5)] in
  (forall m, In m (Master1 db) -> Code m = 2%Z -> MasterType m <> 6%Z)
  /\ all_transactions db 2 <> []
  /\ get_stock_ledger_live db 9 2 None None = Ok [].
Proof.
  intros db.
  assert (H : forall m, In m (Master1 db) -> Code m = 2%Z -> MasterType m <> 6%Z).
  { intros m [<-|[]] _. discriminate. }
  split; [exact H|]. split; [discriminate|].
  exact (unknown_item_empty_ledger db 9 2 None None H).
Defined.

(** * Division by zero *)

(** C10.  Division by 0 raises, and the average rate is computed behind a
    guard: it is 0 when the quantity is 0 and value / quantity otherwise.
    Hence the advance to the window start, the in-window loop, the ledger
    loop, the replay and the two routines return for every stored opening
    balance, transaction list and window. *)
Theorem no_division_by_zero :
  (forall v, Py.div v 0 = ZeroDivisionError)
  /\ (forall v q, average_rate v q = Ok (if Qc_eq_dec q 0 then 0 else v / q))
  /\ (forall sd txns s, exists s', advance_to sd txns s = Ok s')
  /\ (forall sd ed txns a, exists a', replay_window sd ed txns a = Ok a')
  /\ (forall txns idx s data, exists rows,
        ledger_loop txns idx s data = Ok rows)
  /\ (forall sd ed txns bq bv, exists f, replay sd ed txns bq bv = Ok f)
  /\ (forall today sd ed txns bq bv, exists rows,
        ledger_of today sd ed txns bq bv = Ok rows)
  /\ (forall db sd ed hide, exists rows,
        get_closing_stock_live db sd ed hide = Ok rows)
  /\ (forall db today master_code sd ed, exists rows,
        get_stock_ledger_live db today master_code sd ed = Ok rows).
Proof.
  split; [reflexivity|].
  split; [exact average_rate_ok|].
  split; [exact advance_to_total|].
  split; [exact replay_window_total|].
  split; [exact ledger_loop_total|].
  split; [exact replay_total|].
  split; [exact ledger_of_total|].
  split; [exact get_closing_stock_live_total|].
  exact get_stock_ledger_live_total.
Qed.

(** * Further properties of the replay *)

Section Conservation.

Lemma zero_of_not_lt (x : Qc) : ltb 0 x = false -> ltb x 0 = false -> x = 0.
Proof.
  unfold ltb. intros H0 H1. apply Qceq_alt.
  destruct (x ?= 0) eqn:C; [reflexivity|discriminate|].
  change (x ?= 0) with (Qcompare x 0) in C.
  change (0 ?= x) with (Qcompare 0 x) in H0.
  rewrite <- Qcompare_antisym, C in H0. discriminate H0.
Qed.

(** The in-window loop body adds the signed quantity to the running
    quantity and to the period quantity, in every branch. *)
Lemma accumulate_qty (a a' : Accum) (txn : Tran) :
  accumulate a txn = Ok a' ->
  qty (running a') = qty (running a) + Value1 txn
  /\ period_qty a' = period_qty a + Value1 txn.
Proof.
  unfold accumulate. rewrite !average_rate_ok. cbn [Py.bind].
  destruct (ltb 0 (Value1 txn)) eqn:P; [intros [= <-]; cbn; auto|].
  destruct (ltb (Value1 txn) 0) eqn:N; intros [= <-]; cbn.
  - split; [|reflexivity]. unfold Py.abs. rewrite N. ring.
  - rewrite (zero_of_not_lt _ P N). split; ring.
Qed.

Lemma replay_window_qty (sd ed : option date) (txns : list Tran)
  (a a' : Accum) :
  replay_window sd ed txns a = Ok a' ->
  qty (running a')
  = qty (running a) + total Value1 (filter (in_window sd ed) txns)
  /\ period_qty a'
     = period_qty a + total Value1 (filter (in_window sd ed) txns).
Proof.
  revert a. induction txns as [|txn rest IH]; intros a;
    cbn [replay_window filter total].
  - intros [= <-]. split; ring.
  - rewrite <- skipped_in_window.
    destruct (skipped sd ed txn); cbn [negb]; [apply IH|].
    destruct (accumulate_total a txn) as [a1 E]. rewrite E. cbn [Py.bind].
    intros R. destruct (IH _ R) as [Hq Hp].
    destruct (accumulate_qty _ _ _ E) as [Eq Ep].
    cbn [total]. rewrite Hq, Hp, Eq, Ep. split; ring.
Qed.

(** The parts of a replay. *)
Lemma replay_parts (sd ed : option date) (txns : list Tran) (bq bv : Qc) :
  exists oq ov a,
    opening_as_of sd txns bq bv = Ok (oq, ov)
    /\ replay_window sd ed txns
         (mkAccum (mkRunning oq ov (guarded_rate ov oq)) 0 0) = Ok a
    /\ replay sd ed txns bq bv
       = Ok (mkFigures oq ov (period_qty a) (period_val a)
                       (qty (running a)) (val (running a))).
Proof.
  unfold replay.
  destruct (opening_as_of_total sd txns bq bv) as (oq & ov & ->).
  cbn [Py.bind fst snd]. rewrite average_rate_ok. cbn [Py.bind].
  destruct (replay_window_total sd ed txns
              (mkAccum (mkRunning oq ov (guarded_rate ov oq)) 0 0)) as [a E].
  rewrite E. cbn [Py.bind]. exists oq, ov, a. auto.
Qed.

(** When every transaction is skipped the loop changes nothing. *)
Lemma replay_window_all_skipped (sd ed : option date) (txns : list Tran)
  (a : Accum) :
  (forall txn, In txn txns -> in_window sd ed txn = false) ->
  replay_window sd ed txns a = Ok a.
Proof.
  induction txns as [|txn rest IH]; intros H; cbn [replay_window].
  - reflexivity.
  - pose proof (H txn (or_introl eq_refl)) as K.
    rewrite <- skipped_in_window in K. apply negb_false_iff in K. rewrite K.
    apply IH. intros u Hu. apply H. now right.
Qed.

(** Purchases add their amounts to the running value and to the period
    value. *)
Lemma replay_window_inflow (sd ed : option date) (txns : list Tran)
  (a a' : Accum) :
  (forall txn, In txn txns -> in_window sd ed txn = true -> 0 < Value1 txn) ->
  replay_window sd ed txns a = Ok a' ->
  val (running a')
  = val (running a) + total Value3 (filter (in_window sd ed) txns)
  /\ period_val a'
     = period_val a + total Value3 (filter (in_window sd ed) txns).
Proof.
  revert a. induction txns as [|txn rest IH]; intros a H;
    cbn [replay_window filter total].
  - intros [= <-]. split; ring.
  - assert (Hrest : forall u, In u rest -> in_window sd ed u = true ->
                              0 < Value1 u).
    { intros u Hu. apply H. now right. }
    pose proof (H txn (or_introl eq_refl)) as Hpos.
    rewrite <- skipped_in_window in *.
    destruct (skipped sd ed txn); cbn [negb] in *; [now apply IH|].
    specialize (Hpos eq_refl). apply ltb_lt in Hpos.
    unfold accumulate. rewrite Hpos, average_rate_ok. cbn [Py.bind].
    intros R. destruct (IH _ Hrest R) as [Hv Hp].
    cbn [running val period_val] in Hv, Hp.
    cbn [total]. rewrite Hv, Hp. split; ring.
Qed.

(** A sale between two nonzero quantities takes the same amount off the
    running value and off the period value. *)
Lemma accumulate_conserves (a a' : Accum) (txn : Tran) :
  consistent (running a) ->
  (Value1 txn < 0 ->
   qty (running a) <> 0 /\ qty (running a) + Value1 txn <> 0) ->
  accumulate a txn = Ok a' ->
  consistent (running a')
  /\ val (running a') + period_val a = val (running a) + period_val a'.
Proof.
  intros Hc Hs. unfold accumulate. rewrite !average_rate_ok. cbn [Py.bind].
  destruct (ltb 0 (Value1 txn)) eqn:P.
  { intros [= <-]. cbn. split; [reflexivity|ring]. }
  destruct (ltb (Value1 txn) 0) eqn:N; intros [= <-]; cbn.
  - split; [reflexivity|].
    apply ltb_lt in N. destruct (Hs N) as [Hq Hq'].
    unfold Py.abs. apply ltb_lt in N. rewrite N.
    unfold consistent in Hc. rewrite guarded_rate_nonzero in Hc by exact Hq.
    rewrite Hc.
    replace (qty (running a) - - Value1 txn)
      with (qty (running a) - (- Value1 txn)) by reflexivity.
    rewrite rate_after_outflow; [ring|exact Hq|].
    replace (qty (running a) - - Value1 txn)
      with (qty (running a) + Value1 txn) by ring.
    exact Hq'.
  - split; [exact Hc|ring].
Qed.

Lemma replay_window_conserves (sd ed : option date) (txns : list Tran)
  (a a' : Accum) :
  consistent (running a) ->
  sales_leave_stock (qty (running a)) (filter (in_window sd ed) txns) ->
  replay_window sd ed txns a = Ok a' ->
  val (running a') + period_val a = val (running a) + period_val a'.
Proof.
  revert a. induction txns as [|txn rest IH]; intros a Hc;
    cbn [replay_window filter].
  - intros _ [= <-]. ring.
  - rewrite <- skipped_in_window.
    destruct (skipped sd ed txn); cbn [negb]; [now apply IH|].
    cbn [sales_leave_stock]. intros [Hs Hrest].
    destruct (accumulate_total a txn) as [a1 E]. rewrite E. cbn [Py.bind].
    intros R.
    destruct (accumulate_conserves _ _ _ Hc Hs E) as [Hc1 Hv].
    destruct (accumulate_qty _ _ _ E) as [Eq _].
    rewrite <- Eq in Hrest.
    pose proof (IH a1 Hc1 Hrest R) as Hv1.
    assert (E1 : val (running a')
                 = val (running a1) + period_val a' - period_val a1).
    { transitivity (val (running a') + period_val a1 - period_val a1);
        [ring|rewrite Hv1; ring]. }
    assert (E2 : val (running a1)
                 = val (running a) + period_val a1 - period_val a).
    { transitivity (val (running a1) + period_val a - period_val a);
        [ring|rewrite Hv; ring]. }
    rewrite E1, E2. ring.
Qed.

End Conservation.

Section Windows.

Lemma sorted_filter (p : Tran -> bool) (txns : list Tran) :
  StronglySorted date_le txns -> StronglySorted date_le (filter p txns).
Proof.
  induction 1 as [|txn rest Hrest IH Hall]; cbn [filter].
  - constructor.
  - destruct (p txn); [|exact IH].
    constructor; [exact IH|].
    rewrite Forall_forall in *. intros u Hu.
    apply filter_In in Hu. now apply Hall.
Qed.

(** The early [break] fires at once when no date precedes [sd]. *)
Lemma advance_to_none_before (sd : date) (txns : list Tran) (s : Running) :
  Forall (fun u => (sd <= Date u)%Z) txns -> advance_to sd txns s = Ok s.
Proof.
  intros H. destruct H as [|u l Hu _]; cbn [advance_to]; [reflexivity|].
  apply Z.leb_le in Hu. now rewrite Hu.
Qed.

(** The advance to the window start does not see the clause
    [Date <= end_date] of the query. *)
Lemma advance_to_prefilter (sd e : date) (txns : list Tran) (s : Running) :
  StronglySorted date_le txns -> (sd <= e)%Z ->
  advance_to sd (filter (fun t => (Date t <=? e)%Z) txns) s
  = advance_to sd txns s.
Proof.
  intros Hs Hle. revert s.
  induction Hs as [|txn rest Hrest IH Hall]; intros s; cbn [filter].
  - reflexivity.
  - cbn [advance_to]. destruct (Z.leb_spec sd (Date txn)) as [Hge|Hlt].
    + destruct (Date txn <=? e)%Z.
      * cbn [advance_to]. apply Z.leb_le in Hge. now rewrite Hge.
      * apply advance_to_none_before.
        rewrite Forall_forall in *. intros u Hu. apply filter_In in Hu.
        destruct Hu as [Hu _]. specialize (Hall u Hu).
        unfold date_le in Hall. lia.
    + assert (K : (Date txn <=? e)%Z = true) by (apply Z.leb_le; lia).
      rewrite K. cbn [advance_to].
      assert (B : (sd <=? Date txn)%Z = false) by (apply Z.leb_gt; lia).
      rewrite B. destruct (advance s txn); cbn [Py.bind]; [apply IH|reflexivity].
Qed.

(** Nor does the in-window loop, which tests the end date itself. *)
Lemma replay_window_prefilter (sd : option date) (e : date)
  (txns : list Tran) (a : Accum) :
  replay_window sd (Some e) (filter (fun t => (Date t <=? e)%Z) txns) a
  = replay_window sd (Some e) txns a.
Proof.
  revert a. induction txns as [|txn rest IH]; intros a; cbn [filter].
  - reflexivity.
  - destruct (Z.leb_spec (Date txn) e) as [Hin|Hout]; cbn [replay_window].
    + destruct (skipped sd (Some e) txn); [apply IH|].
      destruct (accumulate a txn); cbn [Py.bind]; [apply IH|reflexivity].
    + assert (K : skipped sd (Some e) txn = true).
      { unfold skipped. apply orb_true_iff. right.
        rewrite Z.gtb_ltb. apply Z.ltb_lt. lia. }
      rewrite K. apply IH.
Qed.

(** On a sorted list the transactions before [sd] followed by those of
    the window [sd .. e] are the transactions before [e + 1]. *)
Lemma sorted_window_partition (sd e : date) (txns : list Tran) :
  StronglySorted date_le txns -> (sd <= e + 1)%Z ->
  filter (fun txn => (Date txn <? sd)%Z) txns
  ++ filter (fun txn => negb (skipped (Some sd) (Some e) txn)) txns
  = filter (fun txn => (Date txn <? e + 1)%Z) txns.
Proof.
  intros Hs Hle.
  induction Hs as [|txn rest Hrest IH Hall]; cbn [filter app].
  - reflexivity.
  - unfold skipped at 1.
    destruct (Z.ltb_spec (Date txn) sd) as [Hlt|Hge]; cbn [orb negb app].
    + assert (K : (Date txn <? e + 1)%Z = true) by (apply Z.ltb_lt; lia).
      rewrite K. now f_equal.
    + rewrite (none_before sd txn rest Hge Hall). cbn [app].
      assert (E : forall u, In u (txn :: rest) ->
                  negb (skipped (Some sd) (Some e) u) = (Date u <? e + 1)%Z).
      { intros u Hu.
        assert (Hd : (sd <= Date u)%Z).
        { destruct Hu as [<-|Hu]; [exact Hge|].
          rewrite Forall_forall in Hall. specialize (Hall u Hu).
          unfold date_le in Hall. lia. }
        unfold skipped.
        assert (B : (Date u <? sd)%Z = false) by (apply Z.ltb_ge; lia).
        rewrite B. cbn [orb]. rewrite Z.gtb_ltb.
        destruct (Z.ltb_spec e (Date u)), (Z.ltb_spec (Date u) (e + 1));
          cbn [negb]; try reflexivity; lia. }
      pose proof (filter_ext_in _ _ (txn :: rest) E) as F.
      cbn [filter] in F. unfold skipped at 1 in F.
      assert (B : (Date txn <? sd)%Z = false) by (apply Z.ltb_ge; lia).
      rewrite B in F. cbn [orb] in F. exact F.
Qed.

End Windows.

(** X1.  Under exact arithmetic: for every stored opening balance,
    transaction list and window the replay returns; its period quantity
    is the sum of the signed quantities of the transactions within the
    window, and its closing quantity is the opening quantity plus the
    period quantity. *)
Theorem quantity_conservation (sd ed : option date) (txns : list Tran)
  (bq bv : Qc) :
  exists f,
    replay sd ed txns bq bv = Ok f
    /\ f_period_qty f = total Value1 (filter (in_window sd ed) txns)
    /\ f_closing_qty f = f_opening_qty f + f_period_qty f.
Proof.
  destruct (replay_parts sd ed txns bq bv) as (oq & ov & a & _ & W & R).
  eexists. split; [exact R|].
  destruct (replay_window_qty _ _ _ _ _ W) as [Hq Hp].
  cbn [running qty period_qty] in Hq, Hp. cbn.
  rewrite Hq, Hp. split; ring.
Qed.

(** X2.  When no transaction falls within the window, the period
    quantity and value are 0 and the closing snapshot is the opening
    snapshot. *)
Theorem quiet_window (sd ed : option date) (txns : list Tran) (bq bv : Qc) :
  (forall txn, In txn txns -> in_window sd ed txn = false) ->
  exists f,
    replay sd ed txns bq bv = Ok f
    /\ f_period_qty f = 0 /\ f_period_val f = 0
    /\ closing f = opening f.
Proof.
  intros H.
  destruct (replay_parts sd ed txns bq bv) as (oq & ov & a & _ & W & R).
  rewrite (replay_window_all_skipped sd ed txns _ H) in W.
  injection W as <-. eexists. split; [exact R|]. cbn. auto.
Qed.

(** A purchase on day 1 and the window of days 5 to 9. *)
Lemma quiet_window_witness :
  let txns := [movement 1 (num 10) (num 100)] in
  (forall txn, In txn txns -> in_window (Some 5) (Some 9) txn = false)
  /\ exists f,
       replay (Some 5) (Some 9) txns 0 0 = Ok f
       /\ f_period_qty f = 0 /\ f_period_val f = 0
       /\ closing f = opening f
       /\ f_closing_qty f = num 10.
Proof.
  intros txns.
  assert (H : forall txn, In txn txns ->
                          in_window (Some 5) (Some 9) txn = false).
  { intros txn [<-|[]]. reflexivity. }
  split; [exact H|].
  destruct (quiet_window (Some 5) (Some 9) txns 0 0 H)
    as (f & E & Hq & Hv & Hc).
  exists f. repeat split; try assumption.
  vm_compute in E. injection E as <-. qc_eq.
Defined.

(** X3.  Under exact arithmetic: when every transaction within the
    window is a purchase, the period value is the sum of their amounts
    and the closing value is the opening value plus that sum. *)
Theorem pure_inflow_conservation (sd ed : option date) (txns : list Tran)
  (bq bv : Qc) :
  (forall txn, In txn txns -> in_window sd ed txn = true -> 0 < Value1 txn) ->
  exists f,
    replay sd ed txns bq bv = Ok f
    /\ f_period_val f = total Value3 (filter (in_window sd ed) txns)
    /\ f_closing_val f = f_opening_val f + f_period_val f.
Proof.
  intros H.
  destruct (replay_parts sd ed txns bq bv) as (oq & ov & a & _ & W & R).
  eexists. split; [exact R|].
  destruct (replay_window_inflow _ _ _ _ _ H W) as [Hv Hp].
  cbn [running val period_val] in Hv, Hp. cbn.
  rewrite Hv, Hp. split; ring.
Qed.

(** Two purchases, for 100 and for 60, after a sale that precedes the
    window. *)
Lemma pure_inflow_conservation_witness :
  let txns := [movement 1 (num (-2)) 0;
               movement 2 (num 10) (num 100);
               movement 3 (num 5) (num 60)] in
  (forall txn, In txn txns -> in_window (Some 2) None txn = true ->
               0 < Value1 txn)
  /\ exists f,
       replay (Some 2) None txns 0 0 = Ok f
       /\ f_period_val f = num 160
       /\ f_closing_val f = f_opening_val f + f_period_val f.
Proof.
  intros txns.
  assert (H : forall txn, In txn txns -> in_window (Some 2) None txn = true ->
                          0 < Value1 txn).
  { intros txn [<-|[<-|[<-|[]]]] W; [discriminate W|reflexivity|reflexivity]. }
  split; [exact H|].
  destruct (pure_inflow_conservation (Some 2) None txns 0 0 H)
    as (f & E & Hp & Hc).
  exists f. split; [exact E|]. split; [|exact Hc].
  rewrite Hp. qc_eq.
Defined.

(** X4.  Under exact arithmetic: when every sale within the window
    finds a nonzero quantity and leaves a nonzero quantity, the closing
    value is the opening value plus the period value. *)
Theorem value_conservation (sd ed : option date) (txns : list Tran)
  (bq bv oq ov : Qc) :
  opening_as_of sd txns bq bv = Ok (oq, ov) ->
  sales_leave_stock oq (filter (in_window sd ed) txns) ->
  exists f,
    replay sd ed txns bq bv = Ok f
    /\ f_closing_val f = f_opening_val f + f_period_val f.
Proof.
  intros O S.
  destruct (replay_parts sd ed txns bq bv) as (oq' & ov' & a & O' & W & R).
  rewrite O in O'. injection O' as <- <-.
  eexists. split; [exact R|].
  pose proof (replay_window_conserves sd ed txns
                (mkAccum (mkRunning oq ov (guarded_rate ov oq)) 0 0) a
                (eq_refl : consistent (mkRunning oq ov (guarded_rate ov oq)))
                S W) as Hv.
  cbn [running val period_val] in Hv. cbn.
  transitivity (val (running a) + 0); [ring|]. now rewrite Hv.
Qed.

(** The sample scenario: a sale of 4 out of 10. *)
Lemma value_conservation_witness :
  let txns := [movement 1 (num 10) (num 100);
               movement 2 (num (-4)) 0;
               movement 3 (num 5) (num 60)] in
  opening_as_of None txns 0 0 = Ok (0, 0)
  /\ sales_leave_stock 0 (filter (in_window None None) txns)
  /\ exists f,
       replay None None txns 0 0 = Ok f
       /\ f_period_val f = num 120
       /\ f_closing_val f = f_opening_val f + f_period_val f.
Proof.
  intros txns.
  assert (O : opening_as_of None txns 0 0 = Ok (0, 0)) by reflexivity.
  assert (S : sales_leave_stock 0 (filter (in_window None None) txns)).
  { cbn [filter in_window andb txns sales_leave_stock].
    split; [intros H; discriminate H|].
    split; [intros _; split; apply truthy_true; reflexivity|].
    split; [intros H; discriminate H|exact I]. }
  split; [exact O|]. split; [exact S|].
  destruct (value_conservation None None txns 0 0 0 0 O S) as (f & E & Hc).
  exists f. split; [exact E|]. split; [|exact Hc].
  vm_compute in E. injection E as <-. qc_eq.
Defined.

(** X5.  When the [Date] column holds dates without a time of day, so
    that the query and the loops compare the same values: for the
    transactions of an item in ascending order of date and a window whose
    start is not after its end, the figures of the stock report are those
    of the replay of all the transactions of the item, and the clause
    [Date <= end_date] of the query changes nothing. *)
Theorem end_date_clause_is_redundant (db : Database) (sd ed : option date)
  (item : Master) :
  Sorted date_le (all_transactions db (Code item)) ->
  (forall s e, sd = Some s -> ed = Some e -> (s <= e)%Z) ->
  stock_figures db sd ed item
  = replay sd ed (all_transactions db (Code item))
      (folio_value (folio_row db (Code item) 6) D1)
      (folio_value (folio_row db (Code item) 6) D3).
Proof.
  intros Hs Hw. apply sorted_strongly in Hs.
  unfold stock_figures, transactions_upto.
  destruct ed as [e|]; [|reflexivity].
  unfold replay.
  assert (O : forall bq bv,
             opening_as_of sd
               (filter (fun t => (Date t <=? e)%Z)
                  (all_transactions db (Code item))) bq bv
             = opening_as_of sd (all_transactions db (Code item)) bq bv).
  { intros bq bv. unfold opening_as_of. destruct sd as [s|]; [|reflexivity].
    rewrite average_rate_ok. cbn [Py.bind].
    now rewrite (advance_to_prefilter s e _ _ Hs (Hw s e eq_refl eq_refl)). }
  rewrite O.
  destruct (opening_as_of sd (all_transactions db (Code item)) _ _)
    as [[oq ov]|]; [|reflexivity].
  cbn [Py.bind fst snd]. rewrite average_rate_ok. cbn [Py.bind].
  now rewrite replay_window_prefilter.
Qed.

(** A purchase, a sale and a later purchase, reported for days 2 to 2. *)
Lemma end_date_clause_is_redundant_witness :
  let db :=
    stock_db
      [movement 1 (num 10) (num 100);
       movement 2 (num (-4)) 0;
       movement 3 (num 5) (num 60)] in
  Sorted date_le (all_transactions db (Code widget))
  /\ (forall s e, Some 2%Z = Some s -> Some 2%Z = Some e -> (s <= e)%Z)
  /\ transactions_upto db 1 (Some 2%Z) <> all_transactions db 1
  /\ stock_figures db (Some 2%Z) (Some 2%Z) widget
     = replay (Some 2%Z) (Some 2%Z) (all_transactions db 1) 0 0.
Proof.
  intros db.
  assert (Hs : Sorted date_le (all_transactions db (Code widget))).
  { repeat constructor; unfold date_le; cbn; lia. }
  assert (Hw : forall s e : Z, Some 2%Z = Some s -> Some 2%Z = Some e ->
                               (s <= e)%Z).
  { intros s e [= <-] [= <-]. lia. }
  split; [exact Hs|]. split; [exact Hw|]. split; [discriminate|].
  exact (end_date_clause_is_redundant db (Some 2%Z) (Some 2%Z) widget
           Hs Hw).
Defined.

(** X6.  For transactions in ascending order of date, the closing
    snapshot of a window that ends on day [e] (and starts no later than
    the day after) is the opening snapshot of every window that starts on
    day [e + 1]. *)
Theorem period_chaining (txns : list Tran) (bq bv : Qc) (sd : option date)
  (e : date) (ed' : option date) :
  Sorted date_le txns ->
  (forall s, sd = Some s -> (s <= e + 1)%Z) ->
  exists f1 f2,
    replay sd (Some e) txns bq bv = Ok f1
    /\ replay (Some (e + 1)%Z) ed' txns bq bv = Ok f2
    /\ closing f1 = opening f2.
Proof.
  intros Hs Hw. apply sorted_strongly in Hs.
  destruct (replay_total sd (Some e) txns bq bv) as [f1 E1].
  destruct (replay_total (Some (e + 1)%Z) ed' txns bq bv) as [f2 E2].
  exists f1, f2. split; [exact E1|]. split; [exact E2|].
  apply replay_closing in E1.
  destruct E1 as (oq1 & ov1 & s1 & O1 & A1 & _ & _ & Q1 & V1).
  apply replay_closing in E2.
  destruct E2 as (oq2 & ov2 & s2 & O2 & _ & Q2 & V2 & _).
  apply (opening_as_of_before (e + 1) txns bq bv oq2 ov2 Hs) in O2.
  assert (A : advance_all (filter (fun txn => (Date txn <? e + 1)%Z) txns)
                (mkRunning bq bv (guarded_rate bv bq)) = Ok s1).
  { destruct sd as [s|].
    - apply (opening_as_of_before s txns bq bv oq1 ov1 Hs) in O1.
      rewrite <- (sorted_window_partition s e txns Hs (Hw s eq_refl)).
      rewrite advance_all_app, O1. exact A1.
    - cbn [opening_as_of] in O1. injection O1 as <- <-.
      erewrite filter_ext; [exact A1|].
      intros txn. unfold skipped. cbn [orb]. rewrite Z.gtb_ltb.
      destruct (Z.ltb_spec e (Date txn)), (Z.ltb_spec (Date txn) (e + 1));
        cbn [negb]; try reflexivity; lia. }
  rewrite O2 in A. injection A as <-.
  unfold closing, opening. rewrite Q1, V1, Q2, V2. reflexivity.
Qed.

(** The sample scenario reported for days 1 to 2 and from day 3 on. *)
Lemma period_chaining_witness :
  let txns := [movement 1 (num 10) (num 100);
               movement 2 (num (-4)) 0;
               movement 3 (num 5) (num 60)] in
  Sorted date_le txns
  /\ (forall s, Some 1%Z = Some s -> (s <= 2 + 1)%Z)
  /\ exists f1 f2,
       replay (Some 1%Z) (Some 2%Z) txns 0 0 = Ok f1
       /\ replay (Some (2 + 1)%Z) None txns 0 0 = Ok f2
       /\ closing f1 = opening f2.
Proof.
  intros txns.
  assert (Hs : Sorted date_le txns).
  { repeat constructor; unfold date_le; cbn; lia. }
  assert (Hw : forall s : Z, Some 1%Z = Some s -> (s <= 2 + 1)%Z).
  { intros s [= <-]. lia. }
  split; [exact Hs|]. split; [exact Hw|].
  exact (period_chaining txns 0 0 (Some 1%Z) 2 None Hs Hw).
Defined.

(** * Further properties of the stock report *)

Section StockRows.

(** Without the filter the loop appends one row per item, in order. *)
Lemma stock_loop_all (db : Database) (sd ed : option date)
  (items : list Master) (results rows : list StockRow) :
  stock_loop db sd ed false items results = Ok rows ->
  List.map item_code rows
  = List.map item_code results ++ List.map Code items
  /\ List.map item_name rows
     = List.map item_name results ++ List.map Name items.
Proof.
  revert results. induction items as [|item rest IH]; intros results;
    cbn [stock_loop List.map].
  - intros [= <-]. now rewrite !app_nil_r.
  - destruct (stock_figures_total db sd ed item) as [f ->]. cbn [Py.bind].
    unfold kept at 1. cbn [negb orb]. intros L.
    destruct (IH _ L) as [Hc Hn]. rewrite Hc, Hn, !List.map_app.
    cbn [List.map stock_row item_code item_name]. now rewrite <- !app_assoc.
Qed.

(** The loop keeps what it has and appends the row of every item that
    passes the test. *)
Lemma stock_loop_complete (db : Database) (sd ed : option date) (hide : bool)
  (items : list Master) (results rows : list StockRow) :
  stock_loop db sd ed hide items results = Ok rows ->
  (forall row, In row results -> In row rows)
  /\ forall item f,
       In item items -> stock_figures db sd ed item = Ok f ->
       kept hide f = true -> In (stock_row item f) rows.
Proof.
  revert results. induction items as [|item rest IH]; intros results;
    cbn [stock_loop].
  - intros [= <-]. split; [auto|intros item f []].
  - destruct (stock_figures_total db sd ed item) as [f E]. rewrite E.
    cbn [Py.bind]. intros L. destruct (IH _ L) as [Hres Hitems].
    split.
    + intros row Hrow. apply Hres.
      destruct (kept hide f); [apply in_or_app; now left|exact Hrow].
    + intros item' f' [<-|Hin] Hf' Hk.
      * rewrite E in Hf'. injection Hf' as <-. apply Hres. rewrite Hk.
        apply in_or_app. right. now left.
      * now apply Hitems.
Qed.

End StockRows.

(** X7.  Without [hide_zero_balance] the stock report returns one row per
    stock item of the catalogue, in the order of the catalogue, carrying
    the code and the name of the item. *)
Theorem stock_report_lists_catalogue (db : Database) (sd ed : option date) :
  exists rows,
    get_closing_stock_live db sd ed false = Ok rows
    /\ List.map item_code rows = List.map Code (master_items db 6)
    /\ List.map item_name rows = List.map Name (master_items db 6).
Proof.
  destruct (get_closing_stock_live_total db sd ed false) as [rows E].
  exists rows. split; [exact E|].
  exact (stock_loop_all db sd ed (master_items db 6) [] rows E).
Qed.

(** X8.  Whatever [hide_zero_balance] is, a stock item of the catalogue
    whose closing quantity is not 0 has its row in the stock report. *)
Theorem nonzero_closing_is_listed (db : Database) (sd ed : option date)
  (hide : bool) (item : Master) (f : Figures) (rows : list StockRow) :
  In item (master_items db 6) ->
  stock_figures db sd ed item = Ok f ->
  f_closing_qty f <> 0 ->
  get_closing_stock_live db sd ed hide = Ok rows ->
  In (stock_row item f) rows.
Proof.
  intros Hin Hf Hq Hrows.
  destruct (stock_loop_complete db sd ed hide _ _ _ Hrows) as [_ H].
  apply (H item f Hin Hf). unfold kept.
  apply truthy_true in Hq. rewrite Hq. apply orb_true_r.
Qed.

(** Of two items the one in stock is listed under [hide_zero_balance]. *)
Lemma nonzero_closing_is_listed_witness :
  let db :=
    two_item_db [movement 1 (num 10) (num 100); movement 2 (num (-10)) 0;
                 gadget_movement 2 (num 3) (num 30)] in
  exists f rows,
    In gadget (master_items db 6)
    /\ stock_figures db None None gadget = Ok f
    /\ f_closing_qty f <> 0
    /\ get_closing_stock_live db None None true = Ok rows
    /\ In (stock_row gadget f) rows.
Proof.
  intros db.
  destruct (stock_figures_total db None None gadget) as [f Ef].
  destruct (get_closing_stock_live_total db None None true) as [rows Er].
  exists f, rows.
  assert (Hin : In gadget (master_items db 6)) by (right; left; reflexivity).
  assert (Hq : f_closing_qty f <> 0).
  { pose proof Ef as C. vm_compute in C. injection C as <-.
    apply truthy_true. reflexivity. }
  split; [exact Hin|]. split; [exact Ef|]. split; [exact Hq|].
  split; [exact Er|].
  exact (nonzero_closing_is_listed db None None true gadget f rows
           Hin Ef Hq Er).
Defined.

(** X9.  Every row of the stock report is the row of a stock item of the
    catalogue, and each of its six figures is a whole number of
    hundredths. *)
Theorem stock_rows_are_rounded (db : Database) (sd ed : option date)
  (hide : bool) (rows : list StockRow) (row : StockRow) :
  get_closing_stock_live db sd ed hide = Ok rows ->
  In row rows ->
  (exists item, In item (master_items db 6) /\ item_code row = Code item
                /\ item_name row = Name item)
  /\ two_decimals (opening_quantity row) /\ two_decimals (opening_value row)
  /\ two_decimals (transaction_quantity row)
  /\ two_decimals (transaction_value row)
  /\ two_decimals (closing_quantity row) /\ two_decimals (closing_value row).
Proof.
  intros Hrows Hin.
  destruct (stock_loop_In _ _ _ _ _ _ _ _ Hrows Hin)
    as [[]|(item & f & Hi & _ & _ & ->)].
  cbn. split; [exists item; auto|].
  repeat split; apply round2_two_decimals.
Qed.

(** The row of an item whose stock is a third of a unit worth 1. *)
Lemma stock_rows_are_rounded_witness :
  let db := stock_db [movement 1 (frac 1 3) (num 1)] in
  exists rows row,
    get_closing_stock_live db None None false = Ok rows
    /\ In row rows
    /\ two_decimals (closing_quantity row)
    /\ closing_quantity row = frac 33 100.
Proof.
  intros db.
  destruct (get_closing_stock_live_total db None None false) as [rows Er].
  pose proof Er as C. vm_compute in C. injection C as <-.
  match type of Er with
  | _ = Ok [?r] => exists [r], r; assert (Hin : In r [r]) by (now left)
  end.
  split; [exact Er|]. split; [exact Hin|].
  destruct (stock_rows_are_rounded db None None false _ _ Er Hin)
    as (_ & _ & _ & _ & _ & H & _).
  split; [exact H|]. qc_eq.
Defined.

(** * Further properties of the ledger *)

Section LedgerTrace.

Lemma round2_zero : round2 0 = 0.
Proof. qc_eq. Qed.

Lemma abs_zero : Py.abs 0 = 0.
Proof. reflexivity. Qed.

(** What one turn of the ledger loop produces. *)
Lemma ledger_step_row (s s' : Running) (idx : nat) (txn : Tran)
  (row : LedgerRow) :
  ledger_step s idx txn = Ok (s', row) ->
  sno row = idx /\ l_date row = Date txn
  /\ opqty row = round2 (qty s) /\ opamount row = round2 (val s)
  /\ closingqty row = round2 (qty s') /\ closingamt row = round2 (val s')
  /\ (qtyin row = 0 \/ qtyout row = 0)
  /\ qty s' = qty s + Value1 txn.
Proof.
  unfold ledger_step. rewrite average_rate_ok.
  destruct (ltb 0 (Value1 txn)) eqn:P; cbn [Py.bind]; intros [= <- <-]; cbn.
  - repeat split; try reflexivity. right. apply round2_zero.
  - repeat split; try reflexivity; [left; apply round2_zero|].
    unfold Py.abs. destruct (ltb (Value1 txn) 0) eqn:N; [ring|].
    rewrite (zero_of_not_lt _ P N). ring.
Qed.

Lemma ledger_loop_trace (txns : list Tran) (idx : nat) (s : Running)
  (data : list LedgerRow) :
  exists new,
    ledger_loop txns idx s data = Ok (data ++ new)
    /\ ledger_trace s idx txns new.
Proof.
  revert idx s data. induction txns as [|txn rest IH]; intros idx s data;
    cbn [ledger_loop].
  - exists []. rewrite app_nil_r. cbn. auto.
  - destruct (ledger_step_total s idx txn) as (s' & row & E).
    rewrite E. cbn [Py.bind fst snd].
    destruct (IH (S idx) s' (data ++ [row])) as (new & L & T).
    exists (row :: new). rewrite L, <- app_assoc. cbn [app ledger_trace].
    split; [reflexivity|]. exists s'. auto.
Qed.

(** The parts of a ledger: the opening row, if any, and the rows of the
    transactions within the window. *)
Lemma ledger_of_parts (today : date) (sd ed : option date)
  (txns : list Tran) (bq bv : Qc) :
  exists oq ov new,
    opening_as_of sd txns bq bv = Ok (oq, ov)
    /\ ledger_of today sd ed txns bq bv
       = Ok ((if ltb 0 oq || ltb 0 ov
              then [opening_row today sd (filter (in_window sd ed) txns) oq ov]
              else []) ++ new)
    /\ ledger_trace (mkRunning oq ov (guarded_rate ov oq)) 1
         (filter (in_window sd ed) txns) new.
Proof.
  unfold ledger_of.
  destruct (opening_as_of_total sd txns bq bv) as (oq & ov & ->).
  exists oq, ov. cbn [Py.bind fst snd]. rewrite average_rate_ok.
  cbn [Py.bind]. rewrite (filter_ext _ _ (skipped_in_window sd ed)).
  match goal with
  | |- context [ledger_loop ?l ?i ?s ?d] =>
      destruct (ledger_loop_trace l i s d) as (new & E & T)
  end.
  exists new. auto.
Qed.

Lemma ledger_trace_numbers (s : Running) (idx : nat) (txns : list Tran)
  (rows : list LedgerRow) :
  ledger_trace s idx txns rows ->
  List.map sno rows = seq idx (List.length txns)
  /\ List.map l_date rows = List.map Date txns.
Proof.
  revert s idx rows. induction txns as [|txn rest IH];
    intros s idx [|row rows]; cbn [ledger_trace]; try contradiction.
  - intros _. split; reflexivity.
  - intros (s' & E & T). destruct (IH _ _ _ T) as [Hn Hd].
    destruct (ledger_step_row _ _ _ _ _ E) as (Hs & Hdate & _).
    cbn [List.map List.length seq]. now rewrite Hn, Hd, Hs, Hdate.
Qed.

Lemma ledger_trace_chained (s : Running) (idx : nat) (txns : list Tran)
  (rows : list LedgerRow) :
  ledger_trace s idx txns rows ->
  chained (round2 (qty s)) (round2 (val s)) rows.
Proof.
  revert s idx rows. induction txns as [|txn rest IH];
    intros s idx [|row rows]; cbn [ledger_trace chained]; try contradiction.
  - auto.
  - intros (s' & E & T).
    destruct (ledger_step_row _ _ _ _ _ E) as (_ & _ & Hq & Hv & Cq & Cv & _).
    rewrite Cq, Cv. split; [exact Hq|]. split; [exact Hv|].
    exact (IH _ _ _ T).
Qed.

Lemma ledger_trace_exclusive (s : Running) (idx : nat) (txns : list Tran)
  (rows : list LedgerRow) :
  ledger_trace s idx txns rows ->
  Forall (fun row => qtyin row = 0 \/ qtyout row = 0) rows.
Proof.
  revert s idx rows. induction txns as [|txn rest IH];
    intros s idx [|row rows]; cbn [ledger_trace]; try contradiction.
  - constructor.
  - intros (s' & E & T).
    destruct (ledger_step_row _ _ _ _ _ E) as (_ & _ & _ & _ & _ & _ & X & _).
    constructor; [exact X|exact (IH _ _ _ T)].
Qed.

(** The last row closes at the quantity reached by adding the signed
    quantities. *)
Lemma ledger_trace_last_qty (s : Running) (idx : nat) (txns : list Tran)
  (rows : list LedgerRow) :
  ledger_trace s idx txns rows -> txns <> [] ->
  exists front final,
    rows = front ++ [final]
    /\ closingqty final = round2 (qty s + total Value1 txns).
Proof.
  revert s idx rows. induction txns as [|txn rest IH];
    intros s idx [|row rows]; cbn [ledger_trace]; try contradiction.
  intros (s' & E & T) _.
  destruct (ledger_step_row _ _ _ _ _ E) as (_ & _ & _ & _ & Cq & _ & _ & Q).
  destruct rest as [|txn' rest'].
  - destruct rows; [|contradiction]. exists [], row. split; [reflexivity|].
    cbn [total]. rewrite Cq, Q. f_equal. ring.
  - destruct (IH _ _ _ T) as (front & final & -> & C); [discriminate|].
    exists (row :: front), final. split; [reflexivity|].
    rewrite C, Q. f_equal. cbn [total]. ring.
Qed.

(** Between nonzero quantities the ledger loop moves the running state as
    the report loop does. *)
Lemma ledger_step_advance (s s' : Running) (idx : nat) (txn : Tran)
  (row : LedgerRow) :
  consistent s ->
  (Value1 txn < 0 -> qty s <> 0 /\ qty s + Value1 txn <> 0) ->
  ledger_step s idx txn = Ok (s', row) ->
  advance s txn = Ok s' /\ consistent s'.
Proof.
  intros Hc Hs. unfold ledger_step, advance. rewrite !average_rate_ok.
  destruct (ltb 0 (Value1 txn)) eqn:P; cbn [Py.bind]; intros [= <- _].
  { split; reflexivity. }
  destruct (ltb (Value1 txn) 0) eqn:N.
  - pose proof (proj1 (ltb_lt _ _) N) as Hneg. destruct (Hs Hneg) as [Hq Hq'].
    assert (R : guarded_rate (val s - Py.abs (Value1 txn) * avg_rate s)
                  (qty s - Py.abs (Value1 txn)) = avg_rate s).
    { unfold consistent in Hc.
      rewrite guarded_rate_nonzero in Hc by exact Hq. rewrite Hc.
      apply rate_after_outflow; [exact Hq|].
      unfold Py.abs. rewrite N.
      replace (qty s - - Value1 txn) with (qty s + Value1 txn) by ring.
      exact Hq'. }
    rewrite R. split; [reflexivity|]. unfold consistent. cbn. now rewrite R.
  - rewrite (zero_of_not_lt _ P N), abs_zero.
    replace (val s - 0 * avg_rate s) with (val s) by ring.
    replace (qty s - 0) with (qty s) by ring.
    destruct s. split; [reflexivity|exact Hc].
Qed.

Lemma ledger_trace_last (s : Running) (idx : nat) (txns : list Tran)
  (rows : list LedgerRow) :
  consistent s -> sales_leave_stock (qty s) txns ->
  ledger_trace s idx txns rows -> txns <> [] ->
  exists s_end front final,
    advance_all txns s = Ok s_end
    /\ rows = front ++ [final]
    /\ closingqty final = round2 (qty s_end)
    /\ closingamt final = round2 (val s_end).
Proof.
  revert s idx rows. induction txns as [|txn rest IH];
    intros s idx [|row rows] Hc; cbn [ledger_trace sales_leave_stock];
    try contradiction.
  intros [Hs Hrest] (s' & E & T) _.
  destruct (ledger_step_advance _ _ _ _ _ Hc Hs E) as [A Hc'].
  destruct (ledger_step_row _ _ _ _ _ E) as (_ & _ & _ & _ & Cq & Cv & _ & Q).
  rewrite <- Q in Hrest. cbn [advance_all]. rewrite A. cbn [Py.bind].
  destruct rest as [|txn' rest'].
  - destruct rows; [|contradiction]. exists s', [], row. cbn. auto.
  - destruct (IH _ _ _ Hc' Hrest T) as (s_end & front & final & A' & -> & C);
      [discriminate|].
    exists s_end, (row :: front), final. auto.
Qed.

End LedgerTrace.

(** X10.  The ledger of a stock item is an opening row numbered 0, if
    any, followed by one row per transaction within the window: these
    rows are numbered 1, 2, ... and carry the dates of the transactions,
    in the order of the transactions. *)
Theorem ledger_rows_follow_transactions (today : date) (sd ed : option date)
  (txns : list Tran) (bq bv : Qc) :
  exists head new,
    ledger_of today sd ed txns bq bv = Ok (head ++ new)
    /\ (List.length head <= 1)%nat
    /\ Forall (fun row => sno row = 0%nat) head
    /\ List.map sno new = seq 1 (List.length (filter (in_window sd ed) txns))
    /\ List.map l_date new = List.map Date (filter (in_window sd ed) txns).
Proof.
  destruct (ledger_of_parts today sd ed txns bq bv)
    as (oq & ov & new & _ & L & T).
  eexists. exists new. split; [exact L|].
  destruct (ledger_trace_numbers _ _ _ _ T) as [Hn Hd].
  destruct (ltb 0 oq || ltb 0 ov); cbn [List.length]; repeat split;
    auto using Forall_nil.
Qed.

(** X11.  In the ledger of a stock item the first transaction row opens
    with the rounded opening quantity and value of the window, and every
    later row opens with the quantity and the amount at which the row
    before it closes. *)
Theorem ledger_rows_chain (today : date) (sd ed : option date)
  (txns : list Tran) (bq bv : Qc) :
  exists oq ov head new,
    opening_as_of sd txns bq bv = Ok (oq, ov)
    /\ ledger_of today sd ed txns bq bv = Ok (head ++ new)
    /\ Forall (fun row => sno row = 0%nat) head
    /\ List.length new = List.length (filter (in_window sd ed) txns)
    /\ chained (round2 oq) (round2 ov) new.
Proof.
  destruct (ledger_of_parts today sd ed txns bq bv)
    as (oq & ov & new & O & L & T).
  exists oq, ov. eexists. exists new.
  split; [exact O|]. split; [exact L|].
  destruct (ledger_trace_numbers _ _ _ _ T) as [Hn _].
  apply (f_equal (@List.length nat)) in Hn.
  rewrite List.length_map, List.length_seq in Hn.
  split; [destruct (ltb 0 oq || ltb 0 ov); auto using Forall_nil|].
  split; [exact Hn|].
  exact (ledger_trace_chained _ _ _ _ T).
Qed.

(** X12.  In every row of the ledger of a stock item one of [qtyin] and
    [qtyout] is 0. *)
Theorem ledger_in_or_out (today : date) (sd ed : option date)
  (txns : list Tran) (bq bv : Qc) :
  exists rows,
    ledger_of today sd ed txns bq bv = Ok rows
    /\ Forall (fun row => qtyin row = 0 \/ qtyout row = 0) rows.
Proof.
  destruct (ledger_of_parts today sd ed txns bq bv)
    as (oq & ov & new & _ & L & T).
  eexists. split; [exact L|].
  apply Forall_app. split; [|exact (ledger_trace_exclusive _ _ _ _ T)].
  destruct (ltb 0 oq || ltb 0 ov); [|constructor].
  constructor; [right; reflexivity|constructor].
Qed.

(** X13.  When a transaction falls within the window, the last row of
    the ledger closes at the rounded closing quantity of the replay of the
    stock report, for every stored opening balance, transaction list and
    window. *)
Theorem ledger_closes_at_report_quantity (today : date) (sd ed : option date)
  (txns : list Tran) (bq bv : Qc) :
  filter (in_window sd ed) txns <> [] ->
  exists f front final,
    replay sd ed txns bq bv = Ok f
    /\ ledger_of today sd ed txns bq bv = Ok (front ++ [final])
    /\ closingqty final = round2 (f_closing_qty f).
Proof.
  intros Hne.
  destruct (replay_parts sd ed txns bq bv) as (oq & ov & a & O & W & R).
  destruct (ledger_of_parts today sd ed txns bq bv)
    as (oq' & ov' & new & O' & L & T).
  rewrite O in O'. injection O' as <- <-.
  destruct (ledger_trace_last_qty _ _ _ _ T Hne) as (front & final & -> & C).
  eexists. eexists. exists final. split; [exact R|].
  split; [rewrite L, app_assoc; reflexivity|].
  destruct (replay_window_qty _ _ _ _ _ W) as [Hq _].
  cbn [running qty] in Hq, C. cbn [f_closing_qty]. now rewrite C, Hq.
Qed.

(** The stock sold out and oversold: the two routines close at -5. *)
Lemma ledger_closes_at_report_quantity_witness :
  let txns := [movement 1 (num 10) (num 100); movement 2 (num (-10)) 0;
               movement 3 (num (-5)) 0] in
  filter (in_window None None) txns <> []
  /\ exists f front final,
       replay None None txns 0 0 = Ok f
       /\ ledger_of 9 None None txns 0 0 = Ok (front ++ [final])
       /\ closingqty final = round2 (f_closing_qty f)
       /\ closingqty final = num (-5).
Proof.
  intros txns.
  assert (Hne : filter (in_window None None) txns <> []) by discriminate.
  split; [exact Hne|].
  destruct (ledger_closes_at_report_quantity 9 None None txns 0 0 Hne)
    as (f & front & final & R & L & C).
  exists f, front, final. repeat split; try assumption.
  rewrite C. vm_compute in R. injection R as <-. qc_eq.
Defined.

(** X14.  Under exact arithmetic: when moreover every sale within the
    window finds a nonzero quantity and leaves a nonzero quantity, the
    last row of the ledger closes at the rounded closing quantity and at
    the rounded closing value of the replay of the stock report. *)
Theorem ledger_closes_at_report_value (today : date) (sd ed : option date)
  (txns : list Tran) (bq bv oq ov : Qc) :
  opening_as_of sd txns bq bv = Ok (oq, ov) ->
  sales_leave_stock oq (filter (in_window sd ed) txns) ->
  filter (in_window sd ed) txns <> [] ->
  exists f front final,
    replay sd ed txns bq bv = Ok f
    /\ ledger_of today sd ed txns bq bv = Ok (front ++ [final])
    /\ closingqty final = round2 (f_closing_qty f)
    /\ closingamt final = round2 (f_closing_val f).
Proof.
  intros O S Hne.
  destruct (replay_total sd ed txns bq bv) as [f R].
  destruct (ledger_of_parts today sd ed txns bq bv)
    as (oq' & ov' & new & O' & L & T).
  rewrite O in O'. injection O' as <- <-.
  destruct (ledger_trace_last _ 1%nat _ _
              (eq_refl : consistent (mkRunning oq ov (guarded_rate ov oq)))
              S T Hne)
    as (s_end & front & final & A & -> & Cq & Cv).
  eexists. eexists. exists final. split; [exact R|].
  split; [rewrite L, app_assoc; reflexivity|].
  apply replay_closing in R.
  destruct R as (oq' & ov' & s & O' & A' & _ & _ & Q & V).
  rewrite O in O'. injection O' as <- <-.
  rewrite (filter_ext _ _ (skipped_in_window sd ed)), A in A'.
  injection A' as <-. now rewrite Cq, Cv, Q, V.
Qed.

(** The sample scenario: ledger and report close at 11 units worth 120. *)
Lemma ledger_closes_at_report_value_witness :
  let txns := [movement 1 (num 10) (num 100); movement 2 (num (-4)) 0;
               movement 3 (num 5) (num 60)] in
  opening_as_of None txns 0 0 = Ok (0, 0)
  /\ sales_leave_stock 0 (filter (in_window None None) txns)
  /\ filter (in_window None None) txns <> []
  /\ exists f front final,
       replay None None txns 0 0 = Ok f
       /\ ledger_of 9 None None txns 0 0 = Ok (front ++ [final])
       /\ closingqty final = round2 (f_closing_qty f)
       /\ closingamt final = round2 (f_closing_val f)
       /\ closingamt final = num 120.
Proof.
  intros txns.
  assert (O : opening_as_of None txns 0 0 = Ok (0, 0)) by reflexivity.
  assert (S : sales_leave_stock 0 (filter (in_window None None) txns)).
  { cbn [filter in_window andb txns sales_leave_stock].
    split; [intros H; discriminate H|].
    split; [intros _; split; apply truthy_true; reflexivity|].
    split; [intros H; discriminate H|exact I]. }
  assert (Hne : filter (in_window None None) txns <> []) by discriminate.
  split; [exact O|]. split; [exact S|]. split; [exact Hne|].
  destruct (ledger_closes_at_report_value 9 None None txns 0 0 0 0 O S Hne)
    as (f & front & final & R & L & Cq & Cv).
  exists f, front, final. repeat split; try assumption.
  rewrite Cv. vm_compute in R. injection R as <-. qc_eq.
Defined.

(** * Further properties of the balance report *)

Section Balances.

Lemma abs_nonneg (x : Qc) : 0 <= Py.abs x.
Proof.
  unfold Py.abs. destruct (ltb x 0) eqn:N.
  - apply ltb_lt in N. apply Qclt_le_weak in N.
    apply Qcopp_le_compat in N. exact N.
  - apply Qcnot_lt_le. intros H. apply ltb_lt in H. congruence.
Qed.

Lemma abs_pos (x : Qc) : x <> 0 -> 0 < Py.abs x.
Proof.
  intros Hx. destruct (Qcle_lt_or_eq _ _ (abs_nonneg x)) as [H|H];
    [exact H|].
  exfalso. apply Hx. unfold Py.abs in H. destruct (ltb x 0).
  - rewrite <- (Qcopp_involutive x), <- H. reflexivity.
  - now symmetry.
Qed.

Lemma pos_plus_nonneg (x y : Qc) : 0 < x -> 0 <= y -> 0 < x + y.
Proof.
  intros Hx Hy. apply (Qclt_le_trans _ (x + 0)).
  - now rewrite Qcplus_0_r.
  - apply Qcplus_le_compat; [apply Qcle_refl|exact Hy].
Qed.

Lemma nonneg_plus_pos (x y : Qc) : 0 <= x -> 0 < y -> 0 < x + y.
Proof. intros Hx Hy. rewrite Qcplus_comm. now apply pos_plus_nonneg. Qed.

Lemma nonneg_plus_nonneg (x y : Qc) : 0 <= x -> 0 <= y -> 0 <= x + y.
Proof.
  intros Hx Hy. rewrite <- (Qcplus_0_r 0). now apply Qcplus_le_compat.
Qed.

(** The test on the sum of the absolute values is the test that one of
    the three figures is not 0. *)
Lemma total_value_positive_truthy (r : BalanceRow) :
  total_value_positive r
  = truthy (opening_balance r) || truthy (transaction_amount r)
    || truthy (closing_balance r).
Proof.
  unfold total_value_positive.
  pose proof (abs_nonneg (opening_balance r)) as No.
  pose proof (abs_nonneg (transaction_amount r)) as Np.
  pose proof (abs_nonneg (closing_balance r)) as Nc.
  destruct (truthy (opening_balance r)) eqn:To.
  { apply truthy_true, abs_pos in To. cbn [orb]. apply ltb_lt.
    apply pos_plus_nonneg; [apply pos_plus_nonneg|]; assumption. }
  destruct (truthy (transaction_amount r)) eqn:Tp.
  { apply truthy_true, abs_pos in Tp. cbn [orb]. apply ltb_lt.
    apply pos_plus_nonneg; [apply nonneg_plus_pos|]; assumption. }
  destruct (truthy (closing_balance r)) eqn:Tc.
  { apply truthy_true, abs_pos in Tc. cbn [orb]. apply ltb_lt.
    apply nonneg_plus_pos; [apply nonneg_plus_nonneg|]; assumption. }
  apply truthy_false in To, Tp, Tc. rewrite To, Tp, Tc. reflexivity.
Qed.

Lemma balance_loop_filter (db : Database) (sd ed : option date)
  (items : list Master) (results : list BalanceRow) :
  balance_loop db sd ed items results
  = results
    ++ filter total_value_positive (List.map (balance_row db sd ed) items).
Proof.
  revert results. induction items as [|item rest IH]; intros results;
    cbn [balance_loop List.map filter].
  - now rewrite app_nil_r.
  - rewrite IH. destruct (total_value_positive (balance_row db sd ed item)).
    + now rewrite <- app_assoc.
    + reflexivity.
Qed.




End Balances.

(** X15.  The balance report is the rows of the accounts of the
    catalogue, in the order of the catalogue, without the accounts whose
    opening balance, period amount and closing balance are all 0. *)
Theorem balance_report_lists_active_accounts (db : Database)
  (sd ed : option date) :
  get_closing_balance_live db sd ed
  = filter (fun r => truthy (opening_balance r)
                     || truthy (transaction_amount r)
                     || truthy (closing_balance r))
      (List.map (balance_row db sd ed) (master_items db 2)).
Proof.
  unfold get_closing_balance_live. rewrite balance_loop_filter.
  cbn [app]. apply filter_ext. exact total_value_positive_truthy.
Qed.

(** * The item details and the item-parameter query *)

(** X17.  [get_item_details] returns the details of a master that has the
    requested code and the type 6, with [id] equal to the code; it
    returns nothing exactly when no master of type 6 has the code, and
    then the ledger of the code is empty for every window. *)
Theorem item_details_lookup (db : Database) (master_code : Z) :
  match get_item_details db master_code with
  | Some d =>
      d_code d = master_code /\ d_mastertype d = 6%Z /\ d_id d = master_code
      /\ exists m, In m (Master1 db) /\ Code m = master_code
                   /\ MasterType m = 6%Z /\ Name m = d_name d
  | None =>
      (forall m, In m (Master1 db) -> Code m = master_code ->
                 MasterType m <> 6%Z)
      /\ forall today sd ed,
           get_stock_ledger_live db today master_code sd ed = Ok []
  end.
Proof.
  unfold get_item_details, get_stock_ledger_live, master_row.
  destruct (find _ (Master1 db)) as [m|] eqn:E.
  - apply find_some in E. destruct E as [Hin Hm].
    apply andb_true_iff in Hm. destruct Hm as [Hc Ht].
    apply Z.eqb_eq in Hc, Ht. cbn. repeat split; try assumption.
    exists m. auto.
  - split; [|reflexivity].
    intros m Hin Hc Ht. pose proof (find_none _ _ E m Hin) as K.
    cbn in K. rewrite Hc, Ht, !Z.eqb_refl in K. discriminate K.
Qed.

(** X18.  Whatever the three arguments of [get_item_param_stock_live]
    are, the query text has as many parameter markers as the parameter
    list has entries. *)
Theorem markers_match_parameters (item_id bcn search : PyValue) :
  count_markers (fst (item_param_query item_id bcn search))
  = List.length (snd (item_param_query item_id bcn search)).
Proof.
  unfold item_param_query.
  destruct (value_truthy item_id), (value_truthy bcn), (value_truthy search);
    vm_compute; reflexivity.
Qed.

(** X19.  The query text of [get_item_param_stock_live] depends only on
    which of the three arguments are set, not on their values: these
    reach the database in the parameter list only. *)
Theorem query_text_ignores_values (item_id bcn search : PyValue)
  (item_id' bcn' search' : PyValue) :
  value_truthy item_id = value_truthy item_id' ->
  value_truthy bcn = value_truthy bcn' ->
  value_truthy search = value_truthy search' ->
  fst (item_param_query item_id bcn search)
  = fst (item_param_query item_id' bcn' search').
Proof.
  intros Hi Hb Hs. unfold item_param_query. rewrite <- Hi, <- Hb, <- Hs.
  destruct (value_truthy item_id), (value_truthy bcn), (value_truthy search);
    reflexivity.
Qed.

(** A search text made of SQL and a plain one give the same query. *)
Lemma query_text_ignores_values_witness :
  let sql := PyStr "x%' OR 1=1 --" in
  let plain := PyStr "x" in
  (value_truthy (PyInt 7) = value_truthy (PyInt 8)
   /\ value_truthy PyNone = value_truthy (PyStr EmptyString)
   /\ value_truthy sql = value_truthy plain)
  /\ fst (item_param_query (PyInt 7) PyNone sql)
     = fst (item_param_query (PyInt 8) (PyStr EmptyString) plain)
  /\ snd (item_param_query (PyInt 7) PyNone sql)
     = PyInt 7 :: repeat (PyStr "%x%' OR 1=1 --%") 7.
Proof.
  intros sql plain.
  assert (Hi : value_truthy (PyInt 7) = value_truthy (PyInt 8))
    by reflexivity.
  assert (Hb : value_truthy PyNone = value_truthy (PyStr EmptyString))
    by reflexivity.
  assert (Hs : value_truthy sql = value_truthy plain) by reflexivity.
  split; [auto|]. split; [|reflexivity].
  exact (query_text_ignores_values (PyInt 7) PyNone sql
           (PyInt 8) (PyStr EmptyString) plain Hi Hb Hs).
Defined.

(** * The voucher labels of the ledger *)

Section Labels.

Lemma voucher_label_nonempty (txn : Tran) (idx : nat) :
  voucher_label txn idx <> EmptyString.
Proof.
  unfold voucher_label. destruct (VchNo txn) as [[|c s]|]; discriminate.
Qed.

Lemma ledger_trace_labels (s : Running) (idx : nat) (txns : list Tran)
  (rows : list LedgerRow) :
  ledger_trace s idx txns rows ->
  Forall (fun row => vchno row <> EmptyString) rows.
Proof.
  revert s idx rows. induction txns as [|txn rest IH];
    intros s idx [|row rows]; cbn [ledger_trace]; try contradiction.
  - constructor.
  - intros (s' & E & T). constructor; [|exact (IH _ _ _ T)].
    revert E. unfold ledger_step. rewrite average_rate_ok.
    destruct (ltb 0 (Value1 txn)); cbn [Py.bind]; intros [= _ <-];
      apply voucher_label_nonempty.
Qed.

End Labels.

(** * The filter on the closing quantity *)

(** C7, as amended.  With [hide_zero_balance] set, a stock item of the
    catalogue whose closing quantity is exactly 0 before rounding has no
    row in the stock report, whatever its activity within the window, and
    a stock item whose closing quantity is not 0 has its row, also when
    that quantity rounds to 0.00. *)
Theorem zero_closing_hidden (db : Database) (sd ed : option date)
  (item : Master) (f : Figures) (rows : list StockRow) :
  In item (master_items db 6) ->
  stock_figures db sd ed item = Ok f ->
  get_closing_stock_live db sd ed true = Ok rows ->
  (f_closing_qty f = 0 ->
   forall row, In row rows -> item_code row <> Code item)
  /\ (f_closing_qty f <> 0 -> In (stock_row item f) rows).
Proof.
  intros Hitem Hf Hrows. split.
  - intros Hzero row Hin Hcode.
    destruct (stock_loop_In _ _ _ _ _ _ _ _ Hrows Hin)
      as [[]|(item' & f' & _ & Hf' & Hkept & ->)].
    cbn [stock_row item_code] in Hcode.
    unfold stock_figures in Hf, Hf'. rewrite Hcode, Hf in Hf'.
    injection Hf' as <-.
    unfold kept in Hkept. rewrite Hzero in Hkept. discriminate Hkept.
  - intros Hq.
    destruct (stock_loop_complete db sd ed true _ _ _ Hrows) as [_ H].
    apply (H item f Hitem Hf). unfold kept.
    apply truthy_true in Hq. rewrite Hq. reflexivity.
Qed.

(** Of two items, the one bought and sold out within the window (period
    value 100, closing quantity 0) has no row; the one that closes at
    0.004, which rounds to 0.00, has its row. *)
Lemma zero_closing_hidden_witness :
  let db :=
    two_item_db [movement 1 (num 10) (num 100); movement 2 (num (-10)) 0;
                 gadget_movement 2 (frac 1 250) (num 1)] in
  exists fw fg rows,
    (In widget (master_items db 6) /\ In gadget (master_items db 6))
    /\ stock_figures db None None widget = Ok fw
    /\ stock_figures db None None gadget = Ok fg
    /\ get_closing_stock_live db None None true = Ok rows
    /\ (f_closing_qty fw = 0 /\ f_period_val fw = num 100)
    /\ (f_closing_qty fg <> 0 /\ round2 (f_closing_qty fg) = 0)
    /\ (forall row, In row rows -> item_code row <> Code widget)
    /\ In (stock_row gadget fg) rows
    /\ List.map item_code rows = [Code gadget].
Proof.
  intros db.
  destruct (stock_figures_total db None None widget) as [fw Ew].
  destruct (stock_figures_total db None None gadget) as [fg Eg].
  destruct (get_closing_stock_live_total db None None true) as [rows Er].
  exists fw, fg, rows.
  assert (Hw : In widget (master_items db 6)) by (left; reflexivity).
  assert (Hg : In gadget (master_items db 6)) by (right; left; reflexivity).
  assert (Zw : f_closing_qty fw = 0).
  { pose proof Ew as C. vm_compute in C. injection C as <-. qc_eq. }
  assert (Zg : f_closing_qty fg <> 0).
  { pose proof Eg as C. vm_compute in C. injection C as <-.
    apply truthy_true. reflexivity. }
  split; [auto|]. split; [exact Ew|]. split; [exact Eg|]. split; [exact Er|].
  split.
  { split; [exact Zw|].
    pose proof Ew as C. vm_compute in C. injection C as <-. qc_eq. }
  split.
  { split; [exact Zg|].
    pose proof Eg as C. vm_compute in C. injection C as <-. qc_eq. }
  split;
    [exact (proj1 (zero_closing_hidden db None None widget fw rows Hw Ew Er)
              Zw)|].
  split;
    [exact (proj2 (zero_closing_hidden db None None gadget fg rows Hg Eg Er)
              Zg)|].
  pose proof Er as C. vm_compute in C. injection C as <-. reflexivity.
Defined.

(** * The figures of a balance row *)



(** * The sums of a balance row *)



(** * The voucher labels of the rows *)

Section RowLabels.

Lemma ledger_trace_vouchers (s : Running) (idx : nat) (txns : list Tran)
  (rows : list LedgerRow) :
  ledger_trace s idx txns rows ->
  Forall2 (fun txn row => vchno row = voucher_label txn (sno row)) txns rows.
Proof.
  revert s idx rows. induction txns as [|txn rest IH];
    intros s idx [|row rows]; cbn [ledger_trace]; try contradiction.
  - constructor.
  - intros (s' & E & T). constructor; [|exact (IH _ _ _ T)].
    revert E. unfold ledger_step. rewrite average_rate_ok.
    destruct (ltb 0 (Value1 txn)); cbn [Py.bind]; intros [= _ <-];
      reflexivity.
Qed.

End RowLabels.

(** X20.  In the ledger of a stock item the opening row, if any, is
    labelled Opening Balance, and the row of each transaction within the
    window is labelled with the voucher number of the transaction, or,
    when the transaction has no voucher number or an empty one, with
    TXN- followed by the number of the row; no row has an empty label. *)
Theorem ledger_rows_are_labelled (today : date) (sd ed : option date)
  (txns : list Tran) (bq bv : Qc) :
  exists head new,
    ledger_of today sd ed txns bq bv = Ok (head ++ new)
    /\ Forall (fun row => sno row = 0%nat
                          /\ vchno row = "Opening Balance"%string) head
    /\ List.map sno new = seq 1 (List.length (filter (in_window sd ed) txns))
    /\ Forall2 (fun txn row =>
                  vchno row
                  = match VchNo txn with
                    | Some (String c label) => String c label
                    | _ => ("TXN-" ++ str_nat (sno row))%string
                    end)
         (filter (in_window sd ed) txns) new
    /\ Forall (fun row => vchno row <> EmptyString) (head ++ new).
Proof.
  destruct (ledger_of_parts today sd ed txns bq bv)
    as (oq & ov & new & _ & L & T).
  eexists. exists new. split; [exact L|].
  destruct (ledger_trace_numbers _ _ _ _ T) as [Hn _].
  assert (V : Forall2 (fun txn row =>
                         vchno row
                         = match VchNo txn with
                           | Some (String c label) => String c label
                           | _ => ("TXN-" ++ str_nat (sno row))%string
                           end)
                (filter (in_window sd ed) txns) new).
  { eapply Forall2_impl; [|exact (ledger_trace_vouchers _ _ _ _ T)].
    intros txn row ->. unfold voucher_label.
    destruct (VchNo txn) as [[|c label]|]; reflexivity. }
  split.
  { destruct (ltb 0 oq || ltb 0 ov); [|constructor].
    constructor; [split; reflexivity|constructor]. }
  split; [exact Hn|]. split; [exact V|].
  apply Forall_app. split; [|exact (ledger_trace_labels _ _ _ _ T)].
  destruct (ltb 0 oq || ltb 0 ov); [|constructor].
  constructor; [discriminate|constructor].
Qed.
